(** * ns3-wifi-propagation: the distance-sweep and runtime-sweep drivers

    A shallow embedding of [wifi-propagation-comparison.cc] (distance sweep
    over five propagation-loss models) and [wifi-runtime-comparison.cc]
    (runtime sweep, Friis only).

    - C++ [double] is IEEE binary64: it is modelled by Rocq's primitive
      floats, so [+], [/] and [*] below round exactly like the program.
    - [uint64_t] values are [N] (byte counters, only read) or [Z].
    - The ns-3 engine (channel, PHY/MAC, UDP applications, flow monitor) is
      external: a [Simulator] maps the scenario that was configured to the
      sequence of [MonitorSnifferRx] signal levels and to the flow
      statistics container that [GetFlowStats] returns.
    - The loop counters [d] and [simulationTime] are doubles that only take
      integer values; they are carried as [Z].  [counter_is_exact] checks
      on binary64 that this is exact for every value up to 1000.
    - Both [for] loops are run with fuel; when the fuel runs out the loop
      hands back the configuration it reached ([StillRunning]). *)

From Stdlib Require Import ZArith NArith List String Bool Lia.
From Stdlib Require Import Floats.
From Stdlib Require Import Sorted.
Import ListNotations.

Set Warnings "-inexact-float".
Local Open Scope Z_scope.

(** ** Conversions between integers and doubles *)

Module Double.

(** Integer to double conversion, round to nearest even (exact below 2^53). *)
Definition of_Z (z : Z) : float :=
  SF2Prim (binary_normalize prec emax z 0 false).

(** [uint64_t n = x]: truncation toward zero.  The conversion is undefined
    in C++ when the truncated value is not representable: [None]. *)
Definition to_uint64 (x : float) : option Z :=
  match Prim2SF x with
  | S754_zero _ => Some 0
  | S754_finite false m e =>
      let v := if 0 <=? e then Zpos m * 2 ^ e else Zpos m / 2 ^ (- e) in
      if v <? 2 ^ 64 then Some v else None
  | S754_finite true m e =>
      if Zpos m <? 2 ^ (- e) then Some 0 else None
  | S754_infinity _ => None
  | S754_nan => None
  end.

End Double.

(** Integers from [start], [len] of them: the values a counter takes. *)
Fixpoint Zseq (start : Z) (len : nat) : list Z :=
  match len with
  | O => []
  | S k => start :: Zseq (start + 1) k
  end.

(** ** Data model *)

Inductive PropagationModel : Set :=
| FRIIS
| FIXED_RSS
| THREE_LOG_DISTANCE
| TWO_RAY_GROUND
| NAKAGAMI.

Definition propagationModelToString (model : PropagationModel) : string :=
  match model with
  | FRIIS => "Friis"
  | FIXED_RSS => "FixedRSS"
  | THREE_LOG_DISTANCE => "ThreeLogDistance"
  | TWO_RAY_GROUND => "TwoRayGround"
  | NAKAGAMI => "Nakagami"
  end.

Definition modelsToBeExamined : list PropagationModel :=
  [FRIIS; FIXED_RSS; THREE_LOG_DISTANCE; TWO_RAY_GROUND; NAKAGAMI].

(** What [wifiChannel.AddPropagationLoss] is given: the ns-3 type and its
    attributes. *)
Inductive LossModel : Set :=
| FriisPropagationLossModel (Frequency SystemLoss : float)
| FixedRssLossModel (Rss : float)
| ThreeLogDistancePropagationLossModel
    (Distance0 Distance1 Distance2 ReferenceLoss : float)
| TwoRayGroundPropagationLossModel
    (Frequency MinDistance SystemLoss HeightAboveZ : float)
| NakagamiPropagationLossModel (Distance1 Distance2 m0 m1 m2 : float).

(** Simulation parameters of [main]. *)
Definition dataRate : float := 75e6%float.
Definition packetSize : Z := 1450.
Definition interval : float :=
  (1 / (dataRate / Double.of_Z (packetSize * 8)))%float.
Definition packetLimit (simulationTime : float) : option Z :=
  Double.to_uint64 (simulationTime / interval)%float.

Definition txPower : float := 10%float.
Definition txGain : float := 1%float.
Definition rxGain : float := 1%float.
Definition antennaZ : float := 1.5%float.

(** The bodies of the five [case]s of the [switch (model)] in [main]. *)
Definition AddPropagationLoss (model : PropagationModel) : LossModel :=
  match model with
  | FRIIS => FriisPropagationLossModel 5.18e9 1.0
  | FIXED_RSS => FixedRssLossModel (-75)
  | THREE_LOG_DISTANCE =>
      ThreeLogDistancePropagationLossModel 1.0 100.0 500.0 46.77
  | TWO_RAY_GROUND =>
      TwoRayGroundPropagationLossModel 5.18e9 0.5 1.0 antennaZ
  | NAKAGAMI => NakagamiPropagationLossModel 80.0 200.0 1.5 0.75 0.75
  end.

(** What one iteration configures before [Simulator::Run]. *)
Record Scenario : Set := {
  propagationLoss : list LossModel;
  TxPowerStart : float;
  TxPowerEnd : float;
  RxGain : float;
  TxGain : float;
  serverPosition : float * float * float;
  clientDistance : Z;             (* client at (d, 0, antennaZ) *)
  serverStart : float;
  clientStart : float;
  appStop : float;                (* serverApp.Stop and clientApp.Stop *)
  MaxPackets : option Z;
  Interval : float;
  PacketSize : Z;
  stopTime : float                (* Simulator::Stop *)
}.

(** [channelLoss] is what the [switch] left in the channel helper (in the
    runtime sweep: the one Friis model). *)
Definition build (channelLoss : list LossModel) (d : Z)
    (simulationTime : float) (limit : option Z) : Scenario :=
  {| propagationLoss := channelLoss;
     TxPowerStart := txPower;
     TxPowerEnd := txPower;
     RxGain := rxGain;
     TxGain := txGain;
     serverPosition := (0, 0, antennaZ)%float;
     clientDistance := d;
     serverStart := 1.0%float;
     clientStart := 2.0%float;
     appStop := simulationTime;
     MaxPackets := limit;
     Interval := interval;
     PacketSize := packetSize;
     stopTime := simulationTime |}.

(** One entry of [FlowMonitor::FlowStatsContainer]; only [rxBytes] is read. *)
Record FlowStats : Set := { rxBytes : N }.

(** What the engine gives back for a run: the [signalNoise.signal] of every
    [MonitorSnifferRx] event, in order, and the flow statistics in
    iteration (flow id) order. *)
Record RunTrace : Set := {
  frames : list float;
  stats : list FlowStats
}.

Definition Simulator : Set := Scenario -> RunTrace.

(** A measurement row [coordinate,rss,throughput,] and the lines of an
    output file. *)
Record Row : Set := {
  coordinate : Z;
  rss : float;
  throughput : float
}.

Inductive Line : Set :=
| Header (columns : string)
| Measurement (r : Row).

Definition File : Set := list Line.

(** The mutable state of a driver: the global [averageRSS], the content of
    the file named [outputFileName], and [connectionPossible]. *)
Record State : Set := {
  averageRSS : float;
  outputFile : File;
  connectionPossible : bool
}.

Definition set_averageRSS (v : float) (st : State) : State :=
  {| averageRSS := v;
     outputFile := outputFile st;
     connectionPossible := connectionPossible st |}.

(** [outputFile.open(outputFileName, std::ios_base::app); outputFile << ...] *)
Definition append (l : Line) (st : State) : State :=
  {| averageRSS := averageRSS st;
     outputFile := outputFile st ++ [l];
     connectionPossible := connectionPossible st |}.

Definition set_connectionPossible (b : bool) (st : State) : State :=
  {| averageRSS := averageRSS st;
     outputFile := outputFile st;
     connectionPossible := b |}.

(** ** The RSS callback *)

Definition PhyTrace (signal : float) (st : State) : State :=
  set_averageRSS ((signal + averageRSS st) / 2)%float st.

(** [Simulator::Run]: the callback fires once per received frame. *)
Fixpoint Run (signals : list float) (st : State) : State :=
  match signals with
  | [] => st
  | signal :: rest => Run rest (PhyTrace signal st)
  end.

(** ** Extraction and recording, the loop over [stats] *)

Definition throughputKbps (rx : N) (simulationTime : float) : float :=
  (Double.of_Z (Z.of_N rx) * 8.0 / simulationTime / 1024)%float.

Fixpoint record_flows (coord : Z) (simulationTime : float)
    (flows : list FlowStats) (st : State) : State :=
  match flows with
  | [] => st
  | it :: rest =>
      let throughput := throughputKbps (rxBytes it) simulationTime in
      let st1 :=
        append (Measurement {| coordinate := coord;
                               rss := averageRSS st;
                               throughput := throughput |}) st in
      let st2 :=
        if (rxBytes it =? 0)%N then set_connectionPossible false st1 else st1 in
      record_flows coord simulationTime rest st2
  end.

(** The part of the loop body the two drivers have in common, from
    [averageRSS = 0] to the end of the loop over [stats]. *)
Definition run_and_record (sim : Simulator) (sc : Scenario) (coord : Z)
    (simulationTime : float) (st : State) : State :=
  let st0 := set_averageRSS 0%float st in
  let trace := sim sc in
  let st1 := Run (frames trace) st0 in
  record_flows coord simulationTime (stats trace) st1.

Inductive LoopResult : Set :=
| Terminated (st : State)
| StillRunning (next : Z) (st : State).

Definition result_state (r : LoopResult) : State :=
  match r with
  | Terminated st => st
  | StillRunning _ st => st
  end.

(** ** Distance sweep ([wifi-propagation-comparison.cc]) *)

Module Distance.

Definition simulationTime : float := 50%float.

Definition scenario (model : PropagationModel) (d : Z) : Scenario :=
  build [AddPropagationLoss model] d simulationTime
        (packetLimit simulationTime).

(** [d >= 500 && (model == NAKAGAMI || model == FIXED_RSS)] *)
Definition forced_model (model : PropagationModel) : bool :=
  match model with
  | NAKAGAMI => true
  | FIXED_RSS => true
  | _ => false
  end.

Definition forced_stop (model : PropagationModel) (d : Z) : bool :=
  (500 <=? d) && forced_model model.

Definition body (sim : Simulator) (model : PropagationModel) (d : Z)
    (st : State) : State :=
  let st1 := run_and_record sim (scenario model d) d simulationTime st in
  if forced_stop model d then set_connectionPossible false st1 else st1.

(** [for (double d = 1; connectionPossible; d += 1)] *)
Fixpoint loop (sim : Simulator) (model : PropagationModel) (fuel : nat)
    (d : Z) (st : State) : LoopResult :=
  match fuel with
  | O => StillRunning d st
  | S fuel' =>
      if connectionPossible st
      then loop sim model fuel' (d + 1) (body sim model d st)
      else Terminated st
  end.

Definition header (model : PropagationModel) : Line :=
  Header ("distanceMeters,rssDBm,throughputKbps,"
            ++ propagationModelToString model).

Definition outputFileName (model : PropagationModel) : string :=
  "output_" ++ propagationModelToString model ++ ".csv".

(** One iteration of the loop over [modelsToBeExamined]; [rss0] is the
    value the global [averageRSS] has when the iteration starts. *)
Definition sweep (sim : Simulator) (model : PropagationModel) (fuel : nat)
    (rss0 : float) : LoopResult :=
  loop sim model fuel 1
       {| averageRSS := rss0;
          outputFile := [header model];
          connectionPossible := true |}.

(** [main]: the files written, in order, when every sweep stops within
    [fuel] iterations. *)
Fixpoint sweep_models (sim : Simulator) (fuel : nat)
    (models : list PropagationModel) (rss0 : float)
    : option (list (string * File)) :=
  match models with
  | [] => Some []
  | model :: rest =>
      match sweep sim model fuel rss0 with
      | Terminated st =>
          match sweep_models sim fuel rest (averageRSS st) with
          | Some files => Some ((outputFileName model, outputFile st) :: files)
          | None => None
          end
      | StillRunning _ _ => None
      end
  end.

Definition main (sim : Simulator) (fuel : nat)
    : option (list (string * File)) :=
  sweep_models sim fuel modelsToBeExamined 0%float.

End Distance.

(** ** Runtime sweep ([wifi-runtime-comparison.cc]) *)

Module Runtime.

Definition distance : Z := 10.

Definition scenario (t : Z) : Scenario :=
  build [FriisPropagationLossModel 5.18e9 1.0] distance (Double.of_Z t)
        (packetLimit (Double.of_Z t)).

Definition body (sim : Simulator) (t : Z) (st : State) : State :=
  run_and_record sim (scenario t) t (Double.of_Z t) st.

(** [for (double simulationTime = 1; simulationTime <= 200;
     simulationTime += 1)] *)
Fixpoint loop (sim : Simulator) (fuel : nat) (t : Z) (st : State)
    : LoopResult :=
  match fuel with
  | O => StillRunning t st
  | S fuel' =>
      if t <=? 200
      then loop sim fuel' (t + 1) (body sim t st)
      else Terminated st
  end.

Definition header : Line := Header "runtime,rssDBm,throughputKbps".

Definition main (sim : Simulator) (fuel : nat) : LoopResult :=
  loop sim fuel 1
       {| averageRSS := 0%float;
          outputFile := [header];
          connectionPossible := true |}.

End Runtime.

(** ** Reading an output file *)

Fixpoint rows (f : File) : list Row :=
  match f with
  | [] => []
  | Header _ :: rest => rows rest
  | Measurement r :: rest => r :: rows rest
  end.

Definition coordinates (f : File) : list Z := map coordinate (rows f).

(** ** The spec's recurrence for the RSS estimate

    [e0 = 0; ei = (si + e_{i-1}) / 2], with [s i] the i-th reported level
    (counted from 1). *)
Fixpoint rss_recurrence (s : nat -> float) (n : nat) : float :=
  match n with
  | O => 0%float
  | S i => ((s (S i) + rss_recurrence s i) / 2)%float
  end.

(** The i-th level of a run, counted from 1. *)
Definition level (signals : list float) (i : nat) : float :=
  nth (Nat.pred i) signals 0%float.

(** The spec's [receivedAnyBytes]: [totalReceivedBytes > 0]. *)
Definition totalReceivedBytes (flows : list FlowStats) : N :=
  fold_right (fun it acc => (rxBytes it + acc)%N) 0%N flows.

Definition receivedAnyBytes (trace : RunTrace) : bool :=
  (0 <? totalReceivedBytes (stats trace))%N.

(** ** What one run does to the state *)

(** The estimate a run ends with: the callback folded over its frames,
    from the reset value. *)
Definition final_estimate (signals : list float) : float :=
  fold_left (fun e s => ((s + e) / 2)%float) signals 0%float.

Definition row_of (coord : Z) (simulationTime e : float) (it : FlowStats)
    : Row :=
  {| coordinate := coord;
     rss := e;
     throughput := throughputKbps (rxBytes it) simulationTime |}.

(** The rows one run appends: one per flow entry. *)
Definition run_rows (sim : Simulator) (sc : Scenario) (coord : Z)
    (simulationTime : float) : list Row :=
  map (row_of coord simulationTime (final_estimate (frames (sim sc))))
      (stats (sim sc)).

(** No iterated flow entry has [rxBytes == 0]. *)
Definition all_received (flows : list FlowStats) : bool :=
  forallb (fun it => negb (rxBytes it =? 0)%N) flows.

(** ** The sweeps as functions of the engine's answers *)

(** The rows the distance sweep's run at [d] appends. *)
Definition distance_rows (sim : Simulator) (model : PropagationModel)
    (d : Z) : list Row :=
  run_rows sim (Distance.scenario model d) d Distance.simulationTime.

(** [connectionPossible] is still true after the run at [d]. *)
Definition distance_continues (sim : Simulator) (model : PropagationModel)
    (d : Z) : bool :=
  all_received (stats (sim (Distance.scenario model d)))
  && negb (Distance.forced_stop model d).

(** The rows the runtime sweep's run of [t] seconds appends. *)
Definition runtime_rows (sim : Simulator) (t : Z) : list Row :=
  run_rows sim (Runtime.scenario t) t (Double.of_Z t).

(** ** Engines used as concrete inputs *)

(** One flow entry per run; bytes arrive while the client is closer than
    [D], none from [D] on. *)
Definition sim_connected_until (D : Z) : Simulator :=
  fun sc =>
    {| frames := [(-60)%float; (-60)%float];
       stats := [{| rxBytes := if clientDistance sc <? D
                               then 14500000%N else 0%N |}] |}.

(** One flow entry per run, bytes always arrive. *)
Definition sim_always : Simulator :=
  fun _ =>
    {| frames := [(-60)%float; (-60)%float];
       stats := [{| rxBytes := 14500000%N |}] |}.

(** No frame is received and the flow monitor has seen no flow. *)
Definition sim_no_flows : Simulator :=
  fun _ => {| frames := []; stats := [] |}.

(** Two flows per run (data one way, a second flow the other way). *)
Definition sim_two_flows : Simulator :=
  fun _ =>
    {| frames := [(-60)%float];
       stats := [{| rxBytes := 14500000%N |}; {| rxBytes := 64%N |}] |}.

(** No flow at distance 1; from distance 2 on one flow that delivers
    nothing. *)
Definition sim_gap : Simulator :=
  fun sc =>
    {| frames := [];
       stats := if clientDistance sc =? 1 then [] else [{| rxBytes := 0%N |}] |}.

(** The client application starts at [clientStart]: a run that is stopped
    before that sends nothing, so the flow monitor has no flow. *)
Definition sim_late_client : Simulator :=
  fun sc =>
    if (stopTime sc <? clientStart sc)%float
    then {| frames := []; stats := [] |}
    else {| frames := [(-60)%float; (-60)%float];
            stats := [{| rxBytes := 14500000%N |}] |}.

(** A state a previous run left behind. *)
Definition st_leftover : State :=
  {| averageRSS := (-45)%float;
     outputFile := [Runtime.header];
     connectionPossible := true |}.

(** [n <= t / interval < n + 1] for the packet limit [n] of a run of [t]
    seconds, compared as doubles. *)
Definition limit_is_truncation (t : Z) : bool :=
  match packetLimit (Double.of_Z t) with
  | Some n =>
      ((Double.of_Z n <=? Double.of_Z t / interval)
       && (Double.of_Z t / interval <? Double.of_Z (n + 1)))%float
  | None => false
  end.

(** On binary64, counting from 1 in steps of 1 gives the integers and the
    two loop tests agree with the tests on integers. *)
Definition counter_check (k : Z) : bool :=
  (Double.of_Z k + 1 =? Double.of_Z (k + 1))%float
  && Bool.eqb (Double.of_Z k <=? 200)%float (k <=? 200)
  && Bool.eqb (500 <=? Double.of_Z k)%float (500 <=? k).

(** ** What the distance driver leaves on disk *)

(** The file of one model's sweep: named after the model, the header, then
    the rows of the runs at 1 .. n+1, where the run at n+1 is the first one
    after which [connectionPossible] is false. *)
Definition file_of_sweep (sim : Simulator) (model : PropagationModel)
    (f : string * File) : Prop :=
  fst f = Distance.outputFileName model
  /\ exists n : nat,
       snd f
       = Distance.header model
           :: map Measurement
                (flat_map (distance_rows sim model) (Zseq 1 (S n)))
       /\ (forall k, 1 <= k < 1 + Z.of_nat n ->
                     distance_continues sim model k = true)
       /\ distance_continues sim model (1 + Z.of_nat n) = false.

(** ** Checks on the application windows and the packet limit *)

(** In the runtime-sweep run of [t] seconds: the client's window
    [clientStart, appStop) is not empty only for [t > 2], the server's only
    for [t > 1], and the applications stop when the simulation does. *)
Definition window_check (t : Z) : bool :=
  let sc := Runtime.scenario t in
  Bool.eqb (clientStart sc <? appStop sc)%float (2 <? t)
  && Bool.eqb (serverStart sc <? appStop sc)%float (1 <? t)
  && (appStop sc =? stopTime sc)%float.

(** The packet limit [n] of a run of [t] seconds lies between [6465 t] and
    [6466 t], and is more than the number of intervals between the client's
    start and its stop. *)
Definition limit_check (t : Z) : bool :=
  let sc := Runtime.scenario t in
  match MaxPackets sc with
  | Some n =>
      (6465 * t <=? n) && (n <=? 6466 * t)
      && ((appStop sc - clientStart sc) / Interval sc <? Double.of_Z n)%float
  | None => false
  end.

(** The packet limit does not decrease from [t] to [t + 1] seconds. *)
Definition limit_step_check (t : Z) : bool :=
  match MaxPackets (Runtime.scenario t),
        MaxPackets (Runtime.scenario (t + 1)) with
  | Some n, Some n' => n <=? n'
  | _, _ => false
  end.

(** ** Facts about one run *)

Section RunLemmas.

Variable sim : Simulator.

Lemma Run_app (l1 l2 : list float) (st : State) :
  Run (l1 ++ l2) st = Run l2 (Run l1 st).
Proof. revert st; induction l1 as [|s l1 IH]; simpl; intros; auto. Qed.

Lemma Run_averageRSS (signals : list float) (st : State) :
  averageRSS (Run signals st)
  = fold_left (fun e s => ((s + e) / 2)%float) signals (averageRSS st).
Proof.
  revert st; induction signals as [|s l IH]; intros st; simpl.
  - reflexivity.
  - now rewrite IH.
Qed.

Lemma Run_outputFile (signals : list float) (st : State) :
  outputFile (Run signals st) = outputFile st.
Proof.
  revert st; induction signals as [|s l IH]; intros st; simpl.
  - reflexivity.
  - now rewrite IH.
Qed.

Lemma Run_connectionPossible (signals : list float) (st : State) :
  connectionPossible (Run signals st) = connectionPossible st.
Proof.
  revert st; induction signals as [|s l IH]; intros st; simpl.
  - reflexivity.
  - now rewrite IH.
Qed.

Lemma record_flows_averageRSS coord T flows st :
  averageRSS (record_flows coord T flows st) = averageRSS st.
Proof.
  revert st; induction flows as [|it l IH]; intros st; simpl.
  - reflexivity.
  - rewrite IH. now destruct (rxBytes it =? 0)%N.
Qed.

Lemma record_flows_outputFile coord T flows st :
  outputFile (record_flows coord T flows st)
  = outputFile st
      ++ map Measurement (map (row_of coord T (averageRSS st)) flows).
Proof.
  revert st; induction flows as [|it l IH]; simpl; intros.
  - now rewrite app_nil_r.
  - rewrite IH.
    destruct (rxBytes it =? 0)%N; simpl; now rewrite <- app_assoc.
Qed.

Lemma record_flows_connectionPossible coord T flows st :
  connectionPossible (record_flows coord T flows st)
  = connectionPossible st && all_received flows.
Proof.
  revert st; induction flows as [|it l IH]; simpl; intros.
  - now rewrite andb_true_r.
  - rewrite IH.
    destruct (rxBytes it =? 0)%N; simpl.
    + now rewrite andb_false_r.
    + reflexivity.
Qed.

Lemma run_and_record_averageRSS sc coord T st :
  averageRSS (run_and_record sim sc coord T st)
  = final_estimate (frames (sim sc)).
Proof.
  unfold run_and_record.
  now rewrite record_flows_averageRSS, Run_averageRSS.
Qed.

Lemma run_and_record_outputFile sc coord T st :
  outputFile (run_and_record sim sc coord T st)
  = outputFile st ++ map Measurement (run_rows sim sc coord T).
Proof.
  unfold run_and_record, run_rows.
  now rewrite record_flows_outputFile, Run_outputFile, Run_averageRSS.
Qed.

Lemma run_and_record_connectionPossible sc coord T st :
  connectionPossible (run_and_record sim sc coord T st)
  = connectionPossible st && all_received (stats (sim sc)).
Proof.
  unfold run_and_record.
  now rewrite record_flows_connectionPossible, Run_connectionPossible.
Qed.

Lemma all_received_false flows :
  all_received flows = false
  <-> exists it, In it flows /\ rxBytes it = 0%N.
Proof.
  unfold all_received. induction flows as [|it l IH]; simpl.
  - split; [discriminate | intros (it & [] & _)].
  - destruct (N.eqb_spec (rxBytes it) 0) as [E|E]; simpl.
    + split; [eauto | reflexivity].
    + rewrite IH. split.
      * intros (it' & Hin & H0). eauto.
      * intros (it' & [<- | Hin] & H0); [contradiction | eauto].
Qed.

End RunLemmas.

Lemma rows_app (f g : File) : rows (f ++ g) = rows f ++ rows g.
Proof.
  induction f as [|[c|r] f IH]; simpl; auto. now rewrite IH.
Qed.

Lemma rows_Measurement (l : list Row) : rows (map Measurement l) = l.
Proof. induction l as [|r l IH]; simpl; auto. now rewrite IH. Qed.

Lemma Zseq_app (d : Z) (n m : nat) :
  Zseq d (n + m) = Zseq d n ++ Zseq (d + Z.of_nat n) m.
Proof.
  revert d; induction n as [|n IH]; intros d.
  - simpl. now rewrite Z.add_0_r.
  - cbn [Nat.add Zseq app]. rewrite IH. do 3 f_equal. lia.
Qed.

Lemma Zseq_length (d : Z) (n : nat) : List.length (Zseq d n) = n.
Proof. revert d; induction n as [|n IH]; simpl; intros; auto. Qed.

Lemma In_Zseq (d : Z) (n : nat) (k : Z) :
  In k (Zseq d n) <-> d <= k < d + Z.of_nat n.
Proof.
  revert d; induction n as [|n IH]; intros d.
  - simpl. lia.
  - cbn [Zseq In]. rewrite IH. lia.
Qed.

(** ** Facts about the two loops *)

Lemma first_stop (P : Z -> bool) (b : nat) :
  forall d,
    P (d + Z.of_nat b) = false ->
    exists n, (n <= b)%nat
              /\ (forall k, d <= k < d + Z.of_nat n -> P k = true)
              /\ P (d + Z.of_nat n) = false.
Proof.
  induction b as [|b IH]; intros d Hb.
  - exists O. repeat split; [lia | lia | exact Hb].
  - destruct (P d) eqn:Hd.
    + destruct (IH (d + 1)) as (n & Hn & Hlt & Hstop).
      { rewrite <- Hb. f_equal. lia. }
      exists (S n). repeat split.
      * lia.
      * intros k Hk. destruct (Z.eq_dec k d) as [->|Hne]; [exact Hd|].
        apply Hlt. lia.
      * rewrite <- Hstop. f_equal. lia.
    + exists O. repeat split; [lia | lia |].
      now rewrite Z.add_0_r.
Qed.

Section DistanceLoop.

Variable sim : Simulator.
Variable model : PropagationModel.

Lemma body_averageRSS d st :
  averageRSS (Distance.body sim model d st)
  = final_estimate (frames (sim (Distance.scenario model d))).
Proof.
  unfold Distance.body.
  destruct (Distance.forced_stop model d); simpl;
    apply run_and_record_averageRSS.
Qed.

Lemma body_outputFile d st :
  outputFile (Distance.body sim model d st)
  = outputFile st ++ map Measurement (distance_rows sim model d).
Proof.
  unfold Distance.body, distance_rows.
  destruct (Distance.forced_stop model d); simpl;
    apply run_and_record_outputFile.
Qed.

Lemma body_connectionPossible d st :
  connectionPossible (Distance.body sim model d st)
  = connectionPossible st && distance_continues sim model d.
Proof.
  unfold Distance.body, distance_continues.
  destruct (Distance.forced_stop model d); simpl.
  - now rewrite !andb_false_r.
  - now rewrite run_and_record_connectionPossible, andb_true_r.
Qed.

(** As long as every run leaves the flag set, the loop keeps going. *)
Lemma loop_running (n : nat) :
  forall d st,
    connectionPossible st = true ->
    (forall k, d <= k < d + Z.of_nat n ->
               distance_continues sim model k = true) ->
    exists st',
      Distance.loop sim model n d st = StillRunning (d + Z.of_nat n) st'
      /\ connectionPossible st' = true
      /\ outputFile st'
         = outputFile st
             ++ map Measurement
                  (flat_map (distance_rows sim model) (Zseq d n)).
Proof.
  induction n as [|n IH]; intros d st Hc Hk.
  - exists st. simpl. now rewrite Z.add_0_r, app_nil_r.
  - cbn [Distance.loop]. rewrite Hc.
    destruct (IH (d + 1) (Distance.body sim model d st))
      as (st' & Hloop & Hc' & Hout).
    + rewrite body_connectionPossible, Hc, Hk; [reflexivity | lia].
    + intros k Hrange. apply Hk. lia.
    + exists st'. repeat split.
      * rewrite Hloop. f_equal. lia.
      * exact Hc'.
      * rewrite Hout, body_outputFile. cbn [Zseq flat_map].
        now rewrite map_app, app_assoc.
Qed.

(** The loop stops right after the first run that clears the flag, and
    that run's rows are in the file. *)
Lemma loop_stops (n : nat) :
  forall d st fuel,
    connectionPossible st = true ->
    (forall k, d <= k < d + Z.of_nat n ->
               distance_continues sim model k = true) ->
    distance_continues sim model (d + Z.of_nat n) = false ->
    (n + 2 <= fuel)%nat ->
    exists st',
      Distance.loop sim model fuel d st = Terminated st'
      /\ connectionPossible st' = false
      /\ outputFile st'
         = outputFile st
             ++ map Measurement
                  (flat_map (distance_rows sim model) (Zseq d (S n))).
Proof.
  induction n as [|n IH]; intros d st fuel Hc Hk Hstop Hfuel.
  - destruct fuel as [|[|fuel]]; try lia.
    rewrite Z.add_0_r in Hstop.
    exists (Distance.body sim model d st).
    assert (Hb : connectionPossible (Distance.body sim model d st) = false)
      by now rewrite body_connectionPossible, Hc, Hstop.
    repeat split.
    + cbn [Distance.loop]. now rewrite Hc, Hb.
    + exact Hb.
    + rewrite body_outputFile. cbn [Zseq flat_map].
      now rewrite app_nil_r.
  - destruct fuel as [|fuel]; try lia.
    cbn [Distance.loop]. rewrite Hc.
    destruct (IH (d + 1) (Distance.body sim model d st) fuel)
      as (st' & Hloop & Hc' & Hout).
    + rewrite body_connectionPossible, Hc, Hk; [reflexivity | lia].
    + intros k Hrange. apply Hk. lia.
    + rewrite <- Hstop. f_equal. lia.
    + lia.
    + exists st'. repeat split; auto.
      rewrite Hout, body_outputFile.
      change (Zseq d (S (S n))) with (d :: Zseq (d + 1) (S n)).
      cbn [flat_map]. now rewrite map_app, app_assoc.
Qed.

(** Whatever the engine answers and however much fuel there is, the file
    is the old content followed by the rows of consecutive runs. *)
Lemma loop_output (fuel : nat) :
  forall d st,
    exists n,
      (n <= fuel)%nat
      /\ outputFile (result_state (Distance.loop sim model fuel d st))
         = outputFile st
             ++ map Measurement
                  (flat_map (distance_rows sim model) (Zseq d n)).
Proof.
  induction fuel as [|fuel IH]; intros d st.
  - exists O. simpl. now rewrite app_nil_r.
  - cbn [Distance.loop]. destruct (connectionPossible st).
    + destruct (IH (d + 1) (Distance.body sim model d st)) as (n & Hn & Hout).
      exists (S n). split; [lia|].
      rewrite Hout, body_outputFile. cbn [Zseq flat_map].
      now rewrite map_app, app_assoc.
    + exists O. simpl. split; [lia | now rewrite app_nil_r].
Qed.

End DistanceLoop.

Section RuntimeLoop.

Variable sim : Simulator.

Lemma runtime_body_outputFile t st :
  outputFile (Runtime.body sim t st)
  = outputFile st ++ map Measurement (runtime_rows sim t).
Proof. apply run_and_record_outputFile. Qed.

Lemma runtime_body_averageRSS t st :
  averageRSS (Runtime.body sim t st)
  = final_estimate (frames (sim (Runtime.scenario t))).
Proof. apply run_and_record_averageRSS. Qed.

(** The loop runs every duration from [t] to 200 and then stops; nothing
    the engine answers is consulted. *)
Lemma runtime_loop_terminates (n : nat) :
  forall t st fuel,
    t + Z.of_nat n = 201 ->
    (n < fuel)%nat ->
    exists st',
      Runtime.loop sim fuel t st = Terminated st'
      /\ outputFile st'
         = outputFile st
             ++ map Measurement (flat_map (runtime_rows sim) (Zseq t n)).
Proof.
  induction n as [|n IH]; intros t st fuel Ht Hfuel;
    (destruct fuel as [|fuel]; [lia|]); cbn [Runtime.loop].
  - replace (t <=? 200) with false by (symmetry; apply Z.leb_gt; lia).
    exists st. simpl. now rewrite app_nil_r.
  - replace (t <=? 200) with true by (symmetry; apply Z.leb_le; lia).
    destruct (IH (t + 1) (Runtime.body sim t st) fuel) as (st' & Hloop & Hout);
      [lia | lia |].
    exists st'. split; [exact Hloop|].
    rewrite Hout, runtime_body_outputFile. cbn [Zseq flat_map].
    now rewrite map_app, app_assoc.
Qed.

End RuntimeLoop.

(** ** Facts about rows *)

Lemma In_rows_Measurement (l : list Row) (f : File) (r : Row) :
  In r (rows (f ++ map Measurement l)) <-> In r (rows f) \/ In r l.
Proof. rewrite rows_app, rows_Measurement. apply in_app_iff. Qed.

Lemma In_run_rows (sim : Simulator) (sc : Scenario) (coord : Z) (T : float)
    (r : Row) :
  In r (run_rows sim sc coord T)
  <-> exists it,
        In it (stats (sim sc))
        /\ r = row_of coord T (final_estimate (frames (sim sc))) it.
Proof.
  unfold run_rows. rewrite in_map_iff.
  split; intros (it & H1 & H2); exists it; [split; auto | split; auto];
    congruence.
Qed.

(** A row found among the rows of consecutive runs belongs to the run at
    its own coordinate. *)
Lemma In_flat_map_rows (f : Z -> list Row) (l : list Z) (r : Row) :
  (forall d r', In r' (f d) -> coordinate r' = d) ->
  In r (flat_map f l) -> In (coordinate r) l /\ In r (f (coordinate r)).
Proof.
  intros Hf Hin. apply in_flat_map in Hin. destruct Hin as (d & Hd & Hr).
  rewrite (Hf d r Hr). auto.
Qed.

Lemma run_rows_coordinate (sim : Simulator) (sc : Scenario) (coord : Z)
    (T : float) (r : Row) :
  In r (run_rows sim sc coord T) -> coordinate r = coord.
Proof. rewrite In_run_rows. intros (it & _ & ->). reflexivity. Qed.

(** When every run appends exactly one row, the coordinates in the file are
    the coordinates of the runs. *)
Lemma coordinates_one_row_each (f : Z -> list Row) (l : list Z) :
  (forall d, In d l -> exists r, f d = [r] /\ coordinate r = d) ->
  map coordinate (flat_map f l) = l.
Proof.
  induction l as [|d l IH]; intros H; simpl; [reflexivity|].
  destruct (H d) as (r & -> & Hr); [now left|].
  simpl. rewrite Hr, IH; [reflexivity|].
  intros d' Hd'. apply H. now right.
Qed.

Lemma run_rows_single (sim : Simulator) (sc : Scenario) (coord : Z)
    (T : float) (it : FlowStats) :
  stats (sim sc) = [it] ->
  exists r, run_rows sim sc coord T = [r] /\ coordinate r = coord.
Proof. intros H. unfold run_rows. rewrite H. simpl. eauto. Qed.

Lemma runtime_loop_output (sim : Simulator) (fuel : nat) :
  forall t st,
    exists n,
      (n <= fuel)%nat
      /\ outputFile (result_state (Runtime.loop sim fuel t st))
         = outputFile st
             ++ map Measurement (flat_map (runtime_rows sim) (Zseq t n)).
Proof.
  induction fuel as [|fuel IH]; intros t st.
  - exists O. simpl. now rewrite app_nil_r.
  - cbn [Runtime.loop]. destruct (t <=? 200).
    + destruct (IH (t + 1) (Runtime.body sim t st)) as (n & Hn & Hout).
      exists (S n). split; [lia|].
      rewrite Hout, runtime_body_outputFile. cbn [Zseq flat_map].
      now rewrite map_app, app_assoc.
    + exists O. simpl. split; [lia | now rewrite app_nil_r].
Qed.

(** Every row of a distance sweep's file, at any time, was appended by the
    run at the row's coordinate. *)
Lemma sweep_row_origin (sim : Simulator) (model : PropagationModel)
    (fuel : nat) (rss0 : float) (r : Row) :
  In r (rows (outputFile (result_state (Distance.sweep sim model fuel rss0)))) ->
  In r (distance_rows sim model (coordinate r)).
Proof.
  unfold Distance.sweep.
  destruct (loop_output sim model fuel 1
              {| averageRSS := rss0;
                 outputFile := [Distance.header model];
                 connectionPossible := true |}) as (n & _ & ->).
  rewrite In_rows_Measurement. simpl. intros [[]|Hin].
  apply In_flat_map_rows in Hin; [tauto|].
  intros d r'. apply run_rows_coordinate.
Qed.

Lemma runtime_row_origin (sim : Simulator) (fuel : nat) (r : Row) :
  In r (rows (outputFile (result_state (Runtime.main sim fuel)))) ->
  In r (runtime_rows sim (coordinate r)).
Proof.
  unfold Runtime.main.
  destruct (runtime_loop_output sim fuel 1
              {| averageRSS := 0%float;
                 outputFile := [Runtime.header];
                 connectionPossible := true |}) as (n & _ & ->).
  rewrite In_rows_Measurement. simpl. intros [[]|Hin].
  apply In_flat_map_rows in Hin; [tauto|].
  intros d r'. apply run_rows_coordinate.
Qed.

(** ** Facts about the filter *)

Lemma rss_recurrence_ext (s s' : nat -> float) (n : nat) :
  (forall i, (1 <= i <= n)%nat -> s i = s' i) ->
  rss_recurrence s n = rss_recurrence s' n.
Proof.
  induction n as [|n IH]; intros H; simpl; [reflexivity|].
  rewrite H by lia. rewrite IH; [reflexivity|].
  intros i Hi. apply H. lia.
Qed.

Lemma final_estimate_snoc (signals : list float) (s : float) :
  final_estimate (signals ++ [s])
  = ((s + final_estimate signals) / 2)%float.
Proof. unfold final_estimate. now rewrite fold_left_app. Qed.

Lemma final_estimate_recurrence (signals : list float) :
  final_estimate signals
  = rss_recurrence (level signals) (List.length signals).
Proof.
  induction signals as [|s signals IH] using rev_ind; [reflexivity|].
  rewrite final_estimate_snoc, length_app, Nat.add_1_r. cbn [rss_recurrence].
  f_equal. f_equal.
  - unfold level. cbn [Nat.pred]. now rewrite nth_middle.
  - rewrite IH. apply rss_recurrence_ext. intros i Hi.
    unfold level. rewrite app_nth1; [reflexivity | lia].
Qed.

(** The integer counters stand for the program's doubles exactly, for every
    value either loop test can see below 1000. *)
Lemma counter_is_exact (k : Z) :
  1 <= k <= 1000 -> counter_check k = true.
Proof.
  intros Hk.
  assert (Hall : forallb counter_check (Zseq 1 1000) = true)
    by (vm_compute; reflexivity).
  rewrite forallb_forall in Hall. apply Hall, In_Zseq. lia.
Qed.

(** ** The distance sweep as a whole *)

Lemma sweep_stops_at (sim : Simulator) (model : PropagationModel) (n : nat)
    (fuel : nat) (rss0 : float) :
  (forall k, 1 <= k < 1 + Z.of_nat n ->
             distance_continues sim model k = true) ->
  distance_continues sim model (1 + Z.of_nat n) = false ->
  (n + 2 <= fuel)%nat ->
  exists st,
    Distance.sweep sim model fuel rss0 = Terminated st
    /\ outputFile st
       = Distance.header model
           :: map Measurement
                (flat_map (distance_rows sim model) (Zseq 1 (S n))).
Proof.
  intros Hrun Hstop Hfuel. unfold Distance.sweep.
  destruct (loop_stops sim model n 1
              {| averageRSS := rss0;
                 outputFile := [Distance.header model];
                 connectionPossible := true |} fuel)
    as (st & Hloop & _ & Hout); auto.
  exists st. split; [exact Hloop | exact Hout].
Qed.

Lemma coordinates_header (h : Line) (l : list Row) :
  (forall c, h <> Measurement c) ->
  coordinates (h :: map Measurement l) = map coordinate l.
Proof.
  intros Hh. unfold coordinates. destruct h as [c|r].
  - simpl. now rewrite rows_Measurement.
  - now destruct (Hh r).
Qed.

Lemma single_flow (flows : list FlowStats) :
  List.length flows = 1%nat -> exists it, flows = [it].
Proof.
  destruct flows as [|it [|it' rest]]; simpl; try discriminate. eauto.
Qed.

Lemma forced_stop_below (model : PropagationModel) (d : Z) :
  d < 500 -> Distance.forced_stop model d = false.
Proof.
  intros Hd. unfold Distance.forced_stop.
  replace (500 <=? d) with false by (symmetry; apply Z.leb_gt; lia).
  reflexivity.
Qed.

Lemma sim_always_continues (model : PropagationModel) (d : Z) :
  distance_continues sim_always model d
  = negb (Distance.forced_stop model d).
Proof. reflexivity. Qed.

(** The whole distance driver on an engine that loses the link at
    distance 3: five files, each with the rows for 1, 2 and 3. *)
Example main_writes_five_files :
  option_map (map (fun f => (fst f, coordinates (snd f))))
             (Distance.main (sim_connected_until 3) 5)
  = Some [("output_Friis.csv"%string, [1; 2; 3]);
          ("output_FixedRSS.csv"%string, [1; 2; 3]);
          ("output_ThreeLogDistance.csv"%string, [1; 2; 3]);
          ("output_TwoRayGround.csv"%string, [1; 2; 3]);
          ("output_Nakagami.csv"%string, [1; 2; 3])].
Proof. vm_compute. reflexivity. Qed.

(** * The claims *)

(** C1, as amended (distance-sweep termination).  The coordinate starts at
    1 and grows by 1 per run.  When every run returns exactly one flow
    entry, the runs at 1 .. D-1 receive bytes, the run at D receives none
    and (for FixedRSS and Nakagami) D is at most 500, the sweep stops right
    after the run at D: that run's row, with throughput 0, is the last one
    and the file has rows for the coordinates 1 .. D and no others. *)
Theorem distance_sweep_termination
    (sim : Simulator) (model : PropagationModel) (D : Z) (rss0 : float)
    (fuel : nat) :
  1 <= D ->
  (forall d, 1 <= d <= D ->
             List.length (stats (sim (Distance.scenario model d))) = 1%nat) ->
  (forall d, 1 <= d < D ->
             receivedAnyBytes (sim (Distance.scenario model d)) = true) ->
  receivedAnyBytes (sim (Distance.scenario model D)) = false ->
  (Distance.forced_model model = true -> D <= 500) ->
  (Z.to_nat D + 1 <= fuel)%nat ->
  exists st,
    Distance.sweep sim model fuel rss0 = Terminated st
    /\ coordinates (outputFile st) = Zseq 1 (Z.to_nat D)
    /\ outputFile st
       = Distance.header model
           :: map Measurement
                (flat_map (distance_rows sim model) (Zseq 1 (Z.to_nat D)))
    /\ map throughput (distance_rows sim model D) = [0%float].
Proof.
  intros HD Hone Hrx Hnone Hcap Hfuel.
  assert (Hlast : exists it, stats (sim (Distance.scenario model D)) = [it]
                             /\ rxBytes it = 0%N).
  { destruct (single_flow _ (Hone D ltac:(lia))) as (it & Hit).
    exists it. split; [exact Hit|].
    unfold receivedAnyBytes in Hnone. rewrite Hit in Hnone. simpl in Hnone.
    apply N.ltb_ge in Hnone. lia. }
  destruct Hlast as (itD & HitD & HrxD).
  destruct (sweep_stops_at sim model (Z.to_nat D - 1) fuel rss0)
    as (st & Hsweep & Hout).
  - intros k Hk. unfold distance_continues.
    destruct (single_flow _ (Hone k ltac:(lia))) as (it & Hit).
    rewrite Hit. simpl.
    specialize (Hrx k ltac:(lia)). unfold receivedAnyBytes in Hrx.
    rewrite Hit in Hrx. simpl in Hrx. apply N.ltb_lt in Hrx.
    replace (rxBytes it =? 0)%N with false
      by (symmetry; apply N.eqb_neq; lia).
    destruct (Distance.forced_model model) eqn:Hf.
    + rewrite forced_stop_below; [reflexivity | specialize (Hcap eq_refl); lia].
    + unfold Distance.forced_stop. rewrite Hf. now rewrite andb_false_r.
  - replace (1 + Z.of_nat (Z.to_nat D - 1)) with D by lia.
    unfold distance_continues. rewrite HitD. simpl. now rewrite HrxD.
  - lia.
  - replace (S (Z.to_nat D - 1)) with (Z.to_nat D) in Hout by lia.
    exists st. repeat split; [exact Hsweep | | exact Hout |].
    + rewrite Hout, coordinates_header by discriminate.
      apply coordinates_one_row_each. intros d Hd. apply In_Zseq in Hd.
      destruct (single_flow _ (Hone d ltac:(lia))) as (it & Hit).
      unfold distance_rows. eapply run_rows_single; eauto.
    + unfold distance_rows, run_rows. rewrite HitD. simpl.
      rewrite HrxD. reflexivity.
Qed.

(** C1, witness: Friis, one flow per run, bytes up to distance 4 and none
    at 5. *)
Lemma distance_sweep_termination_witness :
  exists st,
    Distance.sweep (sim_connected_until 5) FRIIS 6 0%float = Terminated st
    /\ coordinates (outputFile st) = Zseq 1 (Z.to_nat 5)
    /\ outputFile st
       = Distance.header FRIIS
           :: map Measurement
                (flat_map (distance_rows (sim_connected_until 5) FRIIS)
                          (Zseq 1 (Z.to_nat 5)))
    /\ map throughput (distance_rows (sim_connected_until 5) FRIIS 5)
       = [0%float].
Proof.
  apply (distance_sweep_termination (sim_connected_until 5) FRIIS 5 0%float 6).
  - lia.
  - intros d _. reflexivity.
  - intros d Hd. unfold receivedAnyBytes, sim_connected_until. simpl.
    replace (d <? 5) with true by (symmetry; apply Z.ltb_lt; lia).
    reflexivity.
  - reflexivity.
  - discriminate.
  - simpl. lia.
Defined.

(** C1, counterexample.  As stated the claim fails in two ways.  FixedRSS
    with bytes received at every distance below 501 and none at 501: the
    sweep stops after 500 although the run at 500 received bytes, and the
    file ends at coordinate 500, not 501.  Friis with a run at distance 1
    for which the flow monitor has no entry (no byte received) and a run at
    2 that delivers nothing: the run at 1 appends no row and the sweep goes
    on; the file holds the single coordinate 2. *)
Lemma distance_sweep_termination_counterexample :
  (exists st,
      Distance.sweep (sim_connected_until 501) FIXED_RSS 600 0%float
      = Terminated st
      /\ forallb (fun d => receivedAnyBytes
                             (sim_connected_until 501
                                (Distance.scenario FIXED_RSS d)))
                 (Zseq 1 500) = true
      /\ receivedAnyBytes
           (sim_connected_until 501 (Distance.scenario FIXED_RSS 501)) = false
      /\ coordinates (outputFile st) = Zseq 1 500
      /\ coordinates (outputFile st) <> Zseq 1 501)
  /\ (exists st,
         Distance.sweep sim_gap FRIIS 10 0%float = Terminated st
         /\ receivedAnyBytes (sim_gap (Distance.scenario FRIIS 1)) = false
         /\ coordinates (outputFile st) = [2]
         /\ coordinates (outputFile st) <> Zseq 1 1).
Proof.
  split.
  - eexists. split; [vm_compute; reflexivity|].
    split; [vm_compute; reflexivity|].
    split; [vm_compute; reflexivity|].
    split; [vm_compute; reflexivity|].
    intros H. apply (f_equal (fun l => Nat.eqb (List.length l) 500)) in H.
    vm_compute in H. discriminate H.
  - eexists. split; [vm_compute; reflexivity|].
    split; [vm_compute; reflexivity|].
    split; [vm_compute; reflexivity|].
    vm_compute. discriminate.
Qed.

(** C2 (RSS filter).  In every run of either driver the estimate starts
    from 0 and each received frame with level [s] replaces it by
    [(s + estimate) / 2]; after the levels [s1 .. sn] the estimate is the
    value [e n] of the recurrence [e0 = 0, ei = (si + e_{i-1}) / 2],
    whatever the estimate was before the run.  The levels [-60, -60] give
    [-45], not [-60]. *)
Theorem rss_filter_recurrence :
  (forall signal st,
      averageRSS (PhyTrace signal st) = ((signal + averageRSS st) / 2)%float)
  /\ (forall signals st,
         averageRSS (Run signals (set_averageRSS 0%float st))
         = rss_recurrence (level signals) (List.length signals))
  /\ (forall sim model d st,
         let signals := frames (sim (Distance.scenario model d)) in
         averageRSS (Distance.body sim model d st)
         = rss_recurrence (level signals) (List.length signals))
  /\ (forall sim t st,
         let signals := frames (sim (Runtime.scenario t)) in
         averageRSS (Runtime.body sim t st)
         = rss_recurrence (level signals) (List.length signals))
  /\ (forall st,
         averageRSS (Run [(-60)%float; (-60)%float] (set_averageRSS 0%float st))
         = (-45)%float)
  /\ (-45)%float <> (-60)%float.
Proof.
  repeat split.
  - intros signals st. rewrite Run_averageRSS.
    apply final_estimate_recurrence.
  - intros sim model d st signals. rewrite body_averageRSS.
    apply final_estimate_recurrence.
  - intros sim t st signals. rewrite runtime_body_averageRSS.
    apply final_estimate_recurrence.
  - intros H. apply (f_equal Prim2SF) in H. vm_compute in H. discriminate H.
Qed.

(** C3 (throughput extraction).  Every row in a file of either driver, at
    any time, carries for some flow entry of the run at its coordinate the
    throughput [rxBytes * 8 / duration / 1024], computed in doubles (the
    duration is 50 in the distance sweep and the run's duration in the
    runtime sweep), and every flow entry of a run gets such a row.  For
    14500000 bytes in 50 seconds the value is the double 2265.625, which
    is exactly 18125/8. *)
Theorem throughput_extraction :
  (forall sim model fuel rss0 r,
      In r (rows (outputFile
                    (result_state (Distance.sweep sim model fuel rss0)))) ->
      exists it,
        In it (stats (sim (Distance.scenario model (coordinate r))))
        /\ throughput r
           = (Double.of_Z (Z.of_N (rxBytes it)) * 8 / 50 / 1024)%float)
  /\ (forall sim fuel r,
         In r (rows (outputFile (result_state (Runtime.main sim fuel)))) ->
         exists it,
           In it (stats (sim (Runtime.scenario (coordinate r))))
           /\ throughput r
              = (Double.of_Z (Z.of_N (rxBytes it)) * 8
                 / Double.of_Z (coordinate r) / 1024)%float)
  /\ (forall sim model d st,
         map throughput (rows (outputFile (Distance.body sim model d st)))
         = map throughput (rows (outputFile st))
             ++ map (fun it =>
                       (Double.of_Z (Z.of_N (rxBytes it)) * 8 / 50 / 1024)%float)
                    (stats (sim (Distance.scenario model d))))
  /\ (forall sim t st,
         map throughput (rows (outputFile (Runtime.body sim t st)))
         = map throughput (rows (outputFile st))
             ++ map (fun it =>
                       (Double.of_Z (Z.of_N (rxBytes it)) * 8
                        / Double.of_Z t / 1024)%float)
                    (stats (sim (Runtime.scenario t))))
  /\ throughputKbps 14500000 50 = 2265.625%float
  /\ (exists m,
         Prim2SF (throughputKbps 14500000 50) = S754_finite false m (-41)
         /\ Zpos m * 8 = 18125 * 2 ^ 41).
Proof.
  repeat split.
  - intros sim model fuel rss0 r Hin.
    apply sweep_row_origin, In_run_rows in Hin.
    destruct Hin as (it & Hit & Hr). exists it. split; [exact Hit|].
    rewrite Hr at 1. reflexivity.
  - intros sim fuel r Hin.
    apply runtime_row_origin, In_run_rows in Hin.
    destruct Hin as (it & Hit & Hr). exists it. split; [exact Hit|].
    rewrite Hr at 1. reflexivity.
  - intros sim model d st.
    rewrite body_outputFile, rows_app, rows_Measurement, map_app.
    f_equal. unfold distance_rows, run_rows. now rewrite map_map.
  - intros sim t st.
    rewrite runtime_body_outputFile, rows_app, rows_Measurement, map_app.
    f_equal. unfold runtime_rows, run_rows. now rewrite map_map.
  - eexists. split; vm_compute; reflexivity.
Qed.

(** C4, as amended (runtime-sweep completeness).  The runtime sweep runs
    the durations 1 .. 200 in steps of 1 and then stops, whatever the
    engine answers ([connectionPossible] is written and never read); each
    run appends one row per flow entry.  So when every run returns exactly
    one flow entry the file holds exactly 200 rows, with the coordinates
    1 .. 200, whatever the byte counts are. *)
Theorem runtime_sweep_completeness (sim : Simulator) (fuel : nat) :
  (201 <= fuel)%nat ->
  exists st,
    Runtime.main sim fuel = Terminated st
    /\ outputFile st
       = Runtime.header
           :: map Measurement (flat_map (runtime_rows sim) (Zseq 1 200))
    /\ ((forall t, 1 <= t <= 200 ->
                   List.length (stats (sim (Runtime.scenario t))) = 1%nat) ->
        coordinates (outputFile st) = Zseq 1 200
        /\ List.length (rows (outputFile st)) = 200%nat).
Proof.
  intros Hfuel. unfold Runtime.main.
  destruct (runtime_loop_terminates sim 200 1
              {| averageRSS := 0%float;
                 outputFile := [Runtime.header];
                 connectionPossible := true |} fuel)
    as (st & Hloop & Hout); [reflexivity | lia |].
  cbn [outputFile app] in Hout.
  exists st. split; [exact Hloop|]. split; [exact Hout|].
  intros Hone.
  assert (Hcoord : coordinates (outputFile st) = Zseq 1 200).
  { rewrite Hout, coordinates_header by discriminate.
    apply coordinates_one_row_each. intros t Ht. apply In_Zseq in Ht.
    destruct (single_flow _ (Hone t ltac:(lia))) as (it & Hit).
    unfold runtime_rows. eapply run_rows_single; eauto. }
  split; [exact Hcoord|].
  apply (f_equal (@List.length Z)) in Hcoord.
  unfold coordinates in Hcoord.
  now rewrite length_map, Zseq_length in Hcoord.
Qed.

(** C4, witness: an engine with one flow entry per run; all 200 rows are
    there. *)
Lemma runtime_sweep_completeness_witness :
  exists st,
    Runtime.main sim_always 201 = Terminated st
    /\ outputFile st
       = Runtime.header
           :: map Measurement (flat_map (runtime_rows sim_always) (Zseq 1 200))
    /\ coordinates (outputFile st) = Zseq 1 200
    /\ List.length (rows (outputFile st)) = 200%nat.
Proof.
  destruct (runtime_sweep_completeness sim_always 201 ltac:(lia))
    as (st & Hmain & Hout & Hrows).
  exists st. split; [exact Hmain|]. split; [exact Hout|].
  apply Hrows. intros t _. reflexivity.
Defined.

(** C4, counterexample.  The client application starts at 2 s, so the run
    of 1 s sends nothing and the flow monitor has no entry for it: all 200
    runs take place, and the file holds 199 rows, with the coordinates
    2 .. 200. *)
Lemma runtime_sweep_completeness_counterexample :
  exists st,
    Runtime.main sim_late_client 201 = Terminated st
    /\ coordinates (outputFile st) = Zseq 2 199
    /\ List.length (rows (outputFile st)) = 199%nat
    /\ coordinates (outputFile st) <> Zseq 1 200.
Proof.
  eexists. split; [vm_compute; reflexivity|].
  split; [vm_compute; reflexivity|].
  split; [vm_compute; reflexivity|].
  intros H. apply (f_equal (fun l => Nat.eqb (List.length l) 199)) in H.
  vm_compute in H. discriminate H.
Qed.

(** C5 (forced stop).  For FixedRSS and Nakagami the sweep stops after the
    run at distance 500 at the latest, whatever the engine answers: it has
    terminated within 501 iterations and every coordinate in the file is
    between 1 and 500; with an engine that always delivers bytes the file
    holds exactly the coordinates 1 .. 500.  The other three models have no
    such bound: with that engine their sweep is still running after any
    number of iterations, and its file holds every coordinate so far. *)
Theorem forced_stop_rule (model : PropagationModel) :
  (model = FIXED_RSS \/ model = NAKAGAMI ->
   (forall sim rss0 fuel,
       (501 <= fuel)%nat ->
       exists st,
         Distance.sweep sim model fuel rss0 = Terminated st
         /\ Forall (fun c => 1 <= c <= 500) (coordinates (outputFile st)))
   /\ (forall rss0 fuel,
          (501 <= fuel)%nat ->
          exists st,
            Distance.sweep sim_always model fuel rss0 = Terminated st
            /\ coordinates (outputFile st) = Zseq 1 500))
  /\ (model = FRIIS \/ model = THREE_LOG_DISTANCE \/ model = TWO_RAY_GROUND ->
      forall rss0 fuel,
        exists st,
          Distance.sweep sim_always model fuel rss0
          = StillRunning (1 + Z.of_nat fuel) st
          /\ coordinates (outputFile st) = Zseq 1 fuel).
Proof.
  split.
  - intros Hmodel.
    assert (Hforced : Distance.forced_model model = true)
      by (destruct Hmodel as [-> | ->]; reflexivity).
    split.
    + intros sim rss0 fuel Hfuel.
      destruct (first_stop (distance_continues sim model) 499 1)
        as (n & Hn & Hrun & Hstop).
      { unfold distance_continues, Distance.forced_stop. rewrite Hforced.
        simpl. apply andb_false_r. }
      destruct (sweep_stops_at sim model n fuel rss0 Hrun Hstop)
        as (st & Hsweep & Hout); [lia|].
      exists st. split; [exact Hsweep|].
      rewrite Hout, coordinates_header by discriminate.
      apply Forall_forall. intros c Hc.
      apply in_map_iff in Hc. destruct Hc as (r & <- & Hr).
      apply In_flat_map_rows in Hr.
      * destruct Hr as (Hr & _). apply In_Zseq in Hr. lia.
      * intros d r'. apply run_rows_coordinate.
    + intros rss0 fuel Hfuel.
      destruct (sweep_stops_at sim_always model 499 fuel rss0)
        as (st & Hsweep & Hout).
      * intros k Hk. rewrite sim_always_continues, forced_stop_below;
          [reflexivity | lia].
      * rewrite sim_always_continues. unfold Distance.forced_stop.
        now rewrite Hforced.
      * lia.
      * exists st. split; [exact Hsweep|].
        rewrite Hout, coordinates_header by discriminate.
        apply coordinates_one_row_each. intros d _.
        unfold distance_rows. eapply run_rows_single. reflexivity.
  - intros Hmodel rss0 fuel.
    assert (Hfree : Distance.forced_model model = false)
      by (destruct Hmodel as [-> | [-> | ->]]; reflexivity).
    destruct (loop_running sim_always model fuel 1
                {| averageRSS := rss0;
                   outputFile := [Distance.header model];
                   connectionPossible := true |})
      as (st & Hloop & _ & Hout).
    + reflexivity.
    + intros k _. rewrite sim_always_continues. unfold Distance.forced_stop.
      rewrite Hfree. now rewrite andb_false_r.
    + exists st. split; [exact Hloop|].
      rewrite Hout. cbn [outputFile app].
      rewrite coordinates_header by discriminate.
      apply coordinates_one_row_each. intros d _.
      unfold distance_rows. eapply run_rows_single. reflexivity.
Qed.

(** C5, witness: Nakagami is stopped at 500, Friis is not. *)
Lemma forced_stop_rule_witness :
  (exists st,
      Distance.sweep sim_always NAKAGAMI 501 0%float = Terminated st
      /\ coordinates (outputFile st) = Zseq 1 500)
  /\ (exists st,
         Distance.sweep sim_always FRIIS 501 0%float
         = StillRunning (1 + Z.of_nat 501) st
         /\ coordinates (outputFile st) = Zseq 1 501).
Proof.
  split.
  - apply (proj2 (proj1 (forced_stop_rule NAKAGAMI) (or_intror eq_refl))).
    lia.
  - apply (proj2 (forced_stop_rule FRIIS) (or_introl eq_refl)).
Defined.

(** C6 (reset before run).  Each run of either driver sets the estimate to
    0 before the simulation executes.  So, whatever value an earlier run or
    an earlier model's sweep left in it: after a run that received no frame
    the estimate is 0 and the rows the run appends carry 0; and every row in
    a file whose run received no frame has RSS exactly 0. *)
Theorem reset_before_run (sim : Simulator) :
  (forall model d st,
      frames (sim (Distance.scenario model d)) = [] ->
      averageRSS (Distance.body sim model d st) = 0%float
      /\ map rss (rows (outputFile (Distance.body sim model d st)))
         = map rss (rows (outputFile st))
             ++ map (fun _ => 0%float)
                    (stats (sim (Distance.scenario model d))))
  /\ (forall t st,
         frames (sim (Runtime.scenario t)) = [] ->
         averageRSS (Runtime.body sim t st) = 0%float
         /\ map rss (rows (outputFile (Runtime.body sim t st)))
            = map rss (rows (outputFile st))
                ++ map (fun _ => 0%float) (stats (sim (Runtime.scenario t))))
  /\ (forall model fuel rss0 r,
         In r (rows (outputFile
                       (result_state (Distance.sweep sim model fuel rss0)))) ->
         frames (sim (Distance.scenario model (coordinate r))) = [] ->
         rss r = 0%float)
  /\ (forall fuel r,
         In r (rows (outputFile (result_state (Runtime.main sim fuel)))) ->
         frames (sim (Runtime.scenario (coordinate r))) = [] ->
         rss r = 0%float).
Proof.
  split; [|split; [|split]].
  - intros model d st Hframes. split.
    + rewrite body_averageRSS, Hframes. reflexivity.
    + rewrite body_outputFile, rows_app, rows_Measurement, map_app.
      f_equal. unfold distance_rows, run_rows.
      rewrite map_map, Hframes. reflexivity.
  - intros t st Hframes. split.
    + rewrite runtime_body_averageRSS, Hframes. reflexivity.
    + rewrite runtime_body_outputFile, rows_app, rows_Measurement, map_app.
      f_equal. unfold runtime_rows, run_rows.
      rewrite map_map, Hframes. reflexivity.
  - intros model fuel rss0 r Hin Hframes.
    apply sweep_row_origin, In_run_rows in Hin.
    destruct Hin as (it & _ & Hr). rewrite Hr at 1. simpl.
    now rewrite Hframes.
  - intros fuel r Hin Hframes.
    apply runtime_row_origin, In_run_rows in Hin.
    destruct Hin as (it & _ & Hr). rewrite Hr at 1. simpl.
    now rewrite Hframes.
Qed.

(** C6, witness: a run without frames after a run that left -45 behind. *)
Lemma reset_before_run_witness :
  frames (sim_gap (Distance.scenario FRIIS 2)) = []
  /\ averageRSS st_leftover = (-45)%float
  /\ averageRSS (Distance.body sim_gap FRIIS 2 st_leftover) = 0%float
  /\ map rss (rows (outputFile (Distance.body sim_gap FRIIS 2 st_leftover)))
     = [0%float].
Proof.
  split; [reflexivity|]. split; [reflexivity|].
  exact (proj1 (reset_before_run sim_gap) FRIIS 2 st_leftover eq_refl).
Defined.

(** C7, as amended (measurements per run).  A completed run of either
    driver produces one RSS estimate, and appends to the end of the file,
    keeping what is there, one row [coordinate,rss,throughput,] per flow
    entry the flow monitor returns: every row of the run carries the run's
    coordinate and its one estimate, and the throughput of its own entry.
    So the append happens exactly once when the monitor returns exactly one
    entry. *)
Theorem rows_per_run (sim : Simulator) :
  (forall model d st,
      outputFile (Distance.body sim model d st)
      = outputFile st
          ++ map (fun it =>
                    Measurement
                      {| coordinate := d;
                         rss := averageRSS (Distance.body sim model d st);
                         throughput :=
                           throughputKbps (rxBytes it)
                                          Distance.simulationTime |})
                 (stats (sim (Distance.scenario model d))))
  /\ (forall t st,
         outputFile (Runtime.body sim t st)
         = outputFile st
             ++ map (fun it =>
                       Measurement
                         {| coordinate := t;
                            rss := averageRSS (Runtime.body sim t st);
                            throughput :=
                              throughputKbps (rxBytes it) (Double.of_Z t) |})
                    (stats (sim (Runtime.scenario t))))
  /\ (forall model d st,
         List.length (outputFile (Distance.body sim model d st))
         = (List.length (outputFile st)
            + List.length (stats (sim (Distance.scenario model d))))%nat)
  /\ (forall t st,
         List.length (outputFile (Runtime.body sim t st))
         = (List.length (outputFile st)
            + List.length (stats (sim (Runtime.scenario t))))%nat).
Proof.
  assert (HD : forall model d st,
             outputFile (Distance.body sim model d st)
             = outputFile st
                 ++ map (fun it =>
                           Measurement
                             {| coordinate := d;
                                rss := averageRSS (Distance.body sim model d st);
                                throughput :=
                                  throughputKbps (rxBytes it)
                                                 Distance.simulationTime |})
                        (stats (sim (Distance.scenario model d)))).
  { intros model d st. rewrite body_outputFile, body_averageRSS.
    unfold distance_rows, run_rows. now rewrite map_map. }
  assert (HR : forall t st,
             outputFile (Runtime.body sim t st)
             = outputFile st
                 ++ map (fun it =>
                           Measurement
                             {| coordinate := t;
                                rss := averageRSS (Runtime.body sim t st);
                                throughput :=
                                  throughputKbps (rxBytes it)
                                                 (Double.of_Z t) |})
                        (stats (sim (Runtime.scenario t)))).
  { intros t st. rewrite runtime_body_outputFile, runtime_body_averageRSS.
    unfold runtime_rows, run_rows. now rewrite map_map. }
  split; [exact HD|]. split; [exact HR|]. split.
  - intros model d st. rewrite HD at 1. now rewrite length_app, length_map.
  - intros t st. rewrite HR at 1. now rewrite length_app, length_map.
Qed.

(** C7, counterexample.  A completed run for which the flow monitor has no
    entry appends nothing, in either driver, and a run with two entries
    appends two rows: the append is not called exactly once per run. *)
Lemma rows_per_run_counterexample :
  rows (outputFile (Distance.body sim_no_flows FRIIS 1 st_leftover)) = []
  /\ rows (outputFile (Runtime.body sim_late_client 1 st_leftover)) = []
  /\ List.length
       (rows (outputFile (Distance.body sim_two_flows FRIIS 1 st_leftover)))
     = 2%nat.
Proof. repeat split. Qed.

(** C9, as amended (scenario arithmetic).  In every run of either driver
    the send interval is [1 / (dataRate / (packetSize * 8))] seconds with
    75 Mbps and 1450 bytes, the same for all runs.  The packet limit passed
    to the traffic generator is [duration / interval] truncated toward zero
    to an unsigned 64-bit integer: 323275 in the distance sweep (50 s), and
    for a runtime-sweep run of [t] seconds the integer [n] with
    [n <= t / interval < n + 1]. *)
Theorem scenario_arithmetic (t : Z) :
  1 <= t <= 200 ->
  interval = (1 / (75e6 / Double.of_Z (1450 * 8)))%float
  /\ (forall model d,
         Interval (Distance.scenario model d) = interval
         /\ PacketSize (Distance.scenario model d) = 1450
         /\ MaxPackets (Distance.scenario model d)
            = Double.to_uint64 (50 / interval)%float
         /\ MaxPackets (Distance.scenario model d) = Some 323275)
  /\ Interval (Runtime.scenario t) = interval
  /\ PacketSize (Runtime.scenario t) = 1450
  /\ MaxPackets (Runtime.scenario t)
     = Double.to_uint64 (Double.of_Z t / interval)%float
  /\ (exists n,
         MaxPackets (Runtime.scenario t) = Some n
         /\ (Double.of_Z n <=? Double.of_Z t / interval)%float = true
         /\ (Double.of_Z t / interval <? Double.of_Z (n + 1))%float = true).
Proof.
  intros Ht.
  split; [reflexivity|].
  split; [intros model d; repeat split; vm_compute; reflexivity|].
  split; [reflexivity|]. split; [reflexivity|]. split; [reflexivity|].
  assert (Hall : forallb limit_is_truncation (Zseq 1 200) = true)
    by (vm_compute; reflexivity).
  rewrite forallb_forall in Hall.
  specialize (Hall t). rewrite In_Zseq in Hall.
  specialize (Hall ltac:(lia)).
  unfold limit_is_truncation in Hall.
  change (MaxPackets (Runtime.scenario t)) with (packetLimit (Double.of_Z t)).
  destruct (packetLimit (Double.of_Z t)) as [n|]; [|discriminate].
  apply andb_true_iff in Hall. exists n. tauto.
Qed.

(** C9, witness: the runtime-sweep run of 50 seconds. *)
Lemma scenario_arithmetic_witness :
  MaxPackets (Runtime.scenario 50)
  = Double.to_uint64 (Double.of_Z 50 / interval)%float
  /\ (exists n,
         MaxPackets (Runtime.scenario 50) = Some n
         /\ (Double.of_Z n <=? Double.of_Z 50 / interval)%float = true
         /\ (Double.of_Z 50 / interval <? Double.of_Z (n + 1))%float = true).
Proof.
  apply (scenario_arithmetic 50 ltac:(lia)).
Defined.

(** C9, counterexample.  For the 50 seconds of the distance sweep the limit
    passed on is the integer 323275, while [duration / interval] is
    323275.862...: the two are not equal. *)
Lemma scenario_arithmetic_counterexample :
  packetLimit Distance.simulationTime = Some 323275
  /\ (Distance.simulationTime / interval)%float = 323275.86206896551%float
  /\ (Double.of_Z 323275 <? Distance.simulationTime / interval)%float = true
  /\ (Double.of_Z 323275 =? Distance.simulationTime / interval)%float = false.
Proof. repeat split; vm_compute; reflexivity. Qed.

(** C10 (no flow entry).  In the distance sweep, a run for which the flow
    monitor returns no entry appends no row and leaves [connectionPossible]
    as the loop over the entries found it; that loop clears the flag only at
    an entry whose [rxBytes] is 0.  After such a run only the test
    [d >= 500] for FixedRSS and Nakagami clears the flag: without it the
    sweep goes on to distance [d + 1], with it the sweep stops. *)
Theorem no_flow_entry_run
    (sim : Simulator) (model : PropagationModel) (d : Z) (st : State)
    (fuel : nat) :
  stats (sim (Distance.scenario model d)) = [] ->
  connectionPossible st = true ->
  outputFile (Distance.body sim model d st) = outputFile st
  /\ connectionPossible
       (run_and_record sim (Distance.scenario model d) d
                       Distance.simulationTime st)
     = connectionPossible st
  /\ connectionPossible (Distance.body sim model d st)
     = negb ((500 <=? d)
             && (match model with
                 | NAKAGAMI | FIXED_RSS => true
                 | _ => false
                 end))
  /\ (forall coord T flows st0,
         connectionPossible st0 = true ->
         (connectionPossible (record_flows coord T flows st0) = false
          <-> exists it, In it flows /\ rxBytes it = 0%N))
  /\ (connectionPossible (Distance.body sim model d st) = true ->
      Distance.loop sim model (S (S fuel)) d st
      = Distance.loop sim model fuel (d + 1 + 1)
          (Distance.body sim model (d + 1) (Distance.body sim model d st)))
  /\ (connectionPossible (Distance.body sim model d st) = false ->
      Distance.loop sim model (S (S fuel)) d st
      = Terminated (Distance.body sim model d st)).
Proof.
  intros Hstats Hc.
  assert (Hflag : connectionPossible
                    (run_and_record sim (Distance.scenario model d) d
                                    Distance.simulationTime st)
                  = connectionPossible st)
    by now rewrite run_and_record_connectionPossible, Hstats, andb_true_r.
  split; [|split; [exact Hflag|split; [|split; [|split]]]].
  - rewrite body_outputFile. unfold distance_rows, run_rows.
    rewrite Hstats. simpl. apply app_nil_r.
  - rewrite body_connectionPossible, Hc. unfold distance_continues.
    rewrite Hstats. reflexivity.
  - intros coord T flows st0 Hc0.
    rewrite record_flows_connectionPossible, Hc0. simpl.
    apply all_received_false.
  - intros Hgo. cbn [Distance.loop]. now rewrite Hc, Hgo.
  - intros Hstop. cbn [Distance.loop]. now rewrite Hc, Hstop.
Qed.

(** C10, witness: no flow entry at distance 1 of the Friis sweep. *)
Lemma no_flow_entry_run_witness :
  outputFile (Distance.body sim_gap FRIIS 1 st_leftover)
  = outputFile st_leftover
  /\ connectionPossible (Distance.body sim_gap FRIIS 1 st_leftover) = true
  /\ Distance.loop sim_gap FRIIS 2 1 st_leftover
     = StillRunning 3
         (Distance.body sim_gap FRIIS 2
                        (Distance.body sim_gap FRIIS 1 st_leftover)).
Proof.
  pose proof (no_flow_entry_run sim_gap FRIIS 1 st_leftover 0
                                eq_refl eq_refl)
    as (Hout & _ & Hflag & _ & Hgo & _).
  split; [exact Hout|]. split; [exact Hflag|]. exact (Hgo Hflag).
Defined.

(** * Further properties of the drivers *)

(** ** Shared facts *)

Lemma State_ext (a b : State) :
  averageRSS a = averageRSS b ->
  outputFile a = outputFile b ->
  connectionPossible a = connectionPossible b ->
  a = b.
Proof. destruct a, b; simpl; intros -> -> ->; reflexivity. Qed.

(** A run of the distance sweep reads the file and the flag of the state
    it starts from, and nothing else. *)
Lemma body_reads (sim : Simulator) (model : PropagationModel) (d : Z)
    (st st' : State) :
  outputFile st = outputFile st' ->
  connectionPossible st = connectionPossible st' ->
  Distance.body sim model d st = Distance.body sim model d st'.
Proof.
  intros Hout Hc. apply State_ext.
  - now rewrite !body_averageRSS.
  - now rewrite !body_outputFile, Hout.
  - now rewrite !body_connectionPossible, Hc.
Qed.

(** What a sweep that has stopped has gone through. *)
Lemma loop_terminated_inv (sim : Simulator) (model : PropagationModel)
    (fuel : nat) :
  forall d st st',
    connectionPossible st = true ->
    Distance.loop sim model fuel d st = Terminated st' ->
    exists n : nat,
      (n + 2 <= fuel)%nat
      /\ (forall k, d <= k < d + Z.of_nat n ->
                    distance_continues sim model k = true)
      /\ distance_continues sim model (d + Z.of_nat n) = false
      /\ outputFile st'
         = outputFile st
             ++ map Measurement
                  (flat_map (distance_rows sim model) (Zseq d (S n)))
      /\ averageRSS st'
         = final_estimate
             (frames (sim (Distance.scenario model (d + Z.of_nat n))))
      /\ connectionPossible st' = false.
Proof.
  induction fuel as [|fuel IH]; intros d st st' Hc Hloop; [discriminate|].
  cbn [Distance.loop] in Hloop. rewrite Hc in Hloop.
  destruct (distance_continues sim model d) eqn:Hd.
  - destruct (IH (d + 1) (Distance.body sim model d st) st')
      as (n & Hn & Hrun & Hstop & Hout & Havg & Hc'); [|exact Hloop|].
    { now rewrite body_connectionPossible, Hc, Hd. }
    exists (S n). repeat split.
    + lia.
    + intros k Hk. destruct (Z.eq_dec k d) as [->|Hne]; [exact Hd|].
      apply Hrun. lia.
    + rewrite <- Hstop. f_equal. lia.
    + rewrite Hout, body_outputFile.
      change (Zseq d (S (S n))) with (d :: Zseq (d + 1) (S n)).
      cbn [flat_map]. now rewrite map_app, app_assoc.
    + rewrite Havg. do 4 f_equal. lia.
    + exact Hc'.
  - assert (Hb : connectionPossible (Distance.body sim model d st) = false)
      by now rewrite body_connectionPossible, Hc, Hd.
    destruct fuel as [|fuel]; [discriminate|].
    cbn [Distance.loop] in Hloop. rewrite Hb in Hloop.
    injection Hloop as <-.
    exists O. rewrite Z.add_0_r. repeat split.
    + lia.
    + intros k Hk. lia.
    + exact Hd.
    + rewrite body_outputFile. cbn [Zseq flat_map]. now rewrite app_nil_r.
    + apply body_averageRSS.
    + exact Hb.
Qed.

Lemma StronglySorted_app (l1 l2 : list Z) :
  StronglySorted Z.le l1 ->
  StronglySorted Z.le l2 ->
  (forall x y, In x l1 -> In y l2 -> x <= y) ->
  StronglySorted Z.le (l1 ++ l2).
Proof.
  induction l1 as [|a l1 IH]; simpl; intros H1 H2 H; [exact H2|].
  inversion H1 as [|a' l' Hs Hall]; subst. constructor.
  - apply IH; auto.
  - apply Forall_app. split; [exact Hall|].
    apply Forall_forall. intros y Hy. apply H; auto.
Qed.

Lemma StronglySorted_constant (d : Z) (l : list Z) :
  (forall x, In x l -> x = d) -> StronglySorted Z.le l.
Proof.
  induction l as [|a l IH]; intros H; constructor.
  - apply IH. intros x Hx. apply H. now right.
  - apply Forall_forall. intros x Hx.
    rewrite (H a (or_introl eq_refl)), (H x (or_intror Hx)). lia.
Qed.

(** The rows of consecutive runs come in the order of the runs. *)
Lemma coordinates_sorted (f : Z -> list Row) :
  (forall d r, In r (f d) -> coordinate r = d) ->
  forall n d,
    StronglySorted Z.le (map coordinate (flat_map f (Zseq d n))).
Proof.
  intros Hf. induction n as [|n IH]; intros d; cbn [Zseq flat_map].
  - constructor.
  - rewrite map_app. apply StronglySorted_app.
    + apply (StronglySorted_constant d). intros x Hx.
      apply in_map_iff in Hx. destruct Hx as (r & <- & Hr). now apply Hf.
    + apply IH.
    + intros x y Hx Hy.
      apply in_map_iff in Hx. destruct Hx as (r & <- & Hr).
      apply in_map_iff in Hy. destruct Hy as (r' & <- & Hr').
      apply In_flat_map_rows in Hr'; [|exact Hf].
      destruct Hr' as (Hr' & _). apply In_Zseq in Hr'.
      rewrite (Hf d r Hr). lia.
Qed.

Lemma coordinates_in_range (f : Z -> list Row) (d : Z) (n : nat) (c : Z) :
  (forall d r, In r (f d) -> coordinate r = d) ->
  In c (map coordinate (flat_map f (Zseq d n))) ->
  d <= c < d + Z.of_nat n.
Proof.
  intros Hf Hc. apply in_map_iff in Hc. destruct Hc as (r & <- & Hr).
  apply In_flat_map_rows in Hr; [|exact Hf].
  destruct Hr as (Hr & _). now apply In_Zseq in Hr.
Qed.

Lemma flat_map_nil {A B : Type} (f : A -> list B) (l : list A) :
  (forall a, In a l -> f a = []) -> flat_map f l = [].
Proof.
  induction l as [|a l IH]; intros H; simpl; [reflexivity|].
  rewrite (H a (or_introl eq_refl)), IH; [reflexivity|].
  intros b Hb. apply H. now right.
Qed.

(** The files of [main], whatever value of [averageRSS] it starts from. *)
Lemma sweep_models_spec (sim : Simulator) (fuel : nat) :
  forall models rss0 files,
    Distance.sweep_models sim fuel models rss0 = Some files ->
    Forall2 (file_of_sweep sim) models files.
Proof.
  induction models as [|model models IH]; intros rss0 files Hmain;
    cbn [Distance.sweep_models] in Hmain.
  - injection Hmain as <-. constructor.
  - destruct (Distance.sweep sim model fuel rss0) as [st|d st] eqn:Hsweep;
      [|discriminate].
    destruct (Distance.sweep_models sim fuel models (averageRSS st))
      as [rest|] eqn:Hrest; [|discriminate].
    injection Hmain as <-.
    constructor; [|eapply IH; exact Hrest].
    unfold Distance.sweep in Hsweep.
    apply loop_terminated_inv in Hsweep; [|reflexivity].
    destruct Hsweep as (n & _ & Hrun & Hstop & Hout & _ & _).
    split; [reflexivity|]. exists n. repeat split; assumption.
Qed.

(** The runtime loop, with the flag and the estimate it ends with. *)
Lemma runtime_loop_state (sim : Simulator) (n : nat) :
  forall t st fuel,
    t + Z.of_nat n = 201 ->
    (n < fuel)%nat ->
    exists st',
      Runtime.loop sim fuel t st = Terminated st'
      /\ connectionPossible st'
         = connectionPossible st
           && forallb (fun u => all_received (stats (sim (Runtime.scenario u))))
                      (Zseq t n)
      /\ (n = O -> st' = st)
      /\ (n <> O ->
          averageRSS st'
          = final_estimate (frames (sim (Runtime.scenario 200)))).
Proof.
  induction n as [|n IH]; intros t st fuel Ht Hfuel;
    (destruct fuel as [|fuel]; [lia|]); cbn [Runtime.loop].
  - replace (t <=? 200) with false by (symmetry; apply Z.leb_gt; lia).
    exists st. simpl. rewrite andb_true_r. repeat split; congruence.
  - replace (t <=? 200) with true by (symmetry; apply Z.leb_le; lia).
    destruct (IH (t + 1) (Runtime.body sim t st) fuel)
      as (st' & Hloop & Hc & Hzero & Havg); [lia | lia |].
    exists st'. repeat split.
    + exact Hloop.
    + rewrite Hc. unfold Runtime.body at 1.
      rewrite run_and_record_connectionPossible. cbn [Zseq forallb].
      now rewrite andb_assoc.
    + discriminate.
    + intros _. destruct n as [|n].
      * rewrite (Hzero eq_refl), runtime_body_averageRSS.
        replace t with 200 by lia. reflexivity.
      * apply Havg. discriminate.
Qed.

(** The runtime loop's file and progress do not depend on the flag or the
    estimate of the state it starts from. *)
Lemma runtime_loop_reads (sim : Simulator) (fuel : nat) :
  forall t st st',
    outputFile st = outputFile st' ->
    outputFile (result_state (Runtime.loop sim fuel t st))
    = outputFile (result_state (Runtime.loop sim fuel t st'))
    /\ (forall s, Runtime.loop sim fuel t st = Terminated s ->
                  exists s', Runtime.loop sim fuel t st' = Terminated s').
Proof.
  induction fuel as [|fuel IH]; intros t st st' Hout; cbn [Runtime.loop].
  - split; [exact Hout | discriminate].
  - destruct (t <=? 200).
    + apply IH. now rewrite !runtime_body_outputFile, Hout.
    + split; [exact Hout | eauto].
Qed.


Lemma all_received_total (flows : list FlowStats) :
  all_received flows = true ->
  flows <> [] ->
  (0 <? totalReceivedBytes flows)%N = true.
Proof.
  destruct flows as [|it rest]; [congruence|]. simpl. intros H _.
  apply andb_true_iff in H. destruct H as (H & _).
  apply negb_true_iff, N.eqb_neq in H. apply N.ltb_lt. lia.
Qed.

Lemma runtime_loop_output_bounded (sim : Simulator) (fuel : nat) :
  forall t st,
    t <= 201 ->
    exists n,
      (n <= fuel)%nat
      /\ t + Z.of_nat n <= 201
      /\ outputFile (result_state (Runtime.loop sim fuel t st))
         = outputFile st
             ++ map Measurement (flat_map (runtime_rows sim) (Zseq t n)).
Proof.
  induction fuel as [|fuel IH]; intros t st Ht.
  - exists O. simpl. rewrite app_nil_r. repeat split; lia.
  - cbn [Runtime.loop]. destruct (Z.leb_spec t 200) as [Hle|Hgt].
    + destruct (IH (t + 1) (Runtime.body sim t st)) as (n & Hn & Hb & Hout);
        [lia|].
      exists (S n). repeat split; [lia | lia |].
      rewrite Hout, runtime_body_outputFile. cbn [Zseq flat_map].
      now rewrite map_app, app_assoc.
    + exists O. simpl. rewrite app_nil_r. repeat split; lia.
Qed.

(** The loop is still running after [n] iterations when the runs before
    the last of them left the flag set (the last one may have cleared it). *)
Lemma loop_running_upto (sim : Simulator) (model : PropagationModel)
    (n : nat) :
  forall d st,
    connectionPossible st = true ->
    (forall k, d <= k < d + Z.of_nat n - 1 ->
               distance_continues sim model k = true) ->
    exists st',
      Distance.loop sim model n d st = StillRunning (d + Z.of_nat n) st'
      /\ outputFile st'
         = outputFile st
             ++ map Measurement
                  (flat_map (distance_rows sim model) (Zseq d n)).
Proof.
  induction n as [|n IH]; intros d st Hc Hk.
  - exists st. simpl. now rewrite Z.add_0_r, app_nil_r.
  - cbn [Distance.loop]. rewrite Hc. destruct n as [|n].
    + exists (Distance.body sim model d st). split; [reflexivity|].
      rewrite body_outputFile. cbn [Zseq flat_map]. now rewrite app_nil_r.
    + destruct (IH (d + 1) (Distance.body sim model d st))
        as (st' & Hloop & Hout).
      * rewrite body_connectionPossible, Hc, Hk; [reflexivity | lia].
      * intros k Hrange. apply Hk. lia.
      * exists st'. split.
        -- rewrite Hloop. f_equal. lia.
        -- rewrite Hout, body_outputFile.
           change (Zseq d (S (S n))) with (d :: Zseq (d + 1) (S n)).
           cbn [flat_map]. now rewrite map_app, app_assoc.
Qed.

(** The runtime loop is still running as long as the durations up to 200
    are not used up. *)
Lemma runtime_loop_running (sim : Simulator) (n : nat) :
  forall t st,
    t + Z.of_nat n <= 201 ->
    exists st',
      Runtime.loop sim n t st = StillRunning (t + Z.of_nat n) st'
      /\ outputFile st'
         = outputFile st
             ++ map Measurement (flat_map (runtime_rows sim) (Zseq t n)).
Proof.
  induction n as [|n IH]; intros t st Ht.
  - exists st. simpl. now rewrite Z.add_0_r, app_nil_r.
  - cbn [Runtime.loop].
    replace (t <=? 200) with true by (symmetry; apply Z.leb_le; lia).
    destruct (IH (t + 1) (Runtime.body sim t st)) as (st' & Hloop & Hout);
      [lia|].
    exists st'. split.
    + rewrite Hloop. f_equal. lia.
    + rewrite Hout, runtime_body_outputFile. cbn [Zseq flat_map].
      now rewrite map_app, app_assoc.
Qed.

(** ** The properties *)


(** X2 (when a sweep stops).  With any number of flow entries per run: a
    model's sweep has stopped exactly when some run, the one at n+1, was
    the first to leave [connectionPossible] false (one of its flow entries
    has [rxBytes == 0], or the distance reached 500 for FixedRSS or
    Nakagami) and the loop had the n+2 iterations for it; the state it
    stops in holds the header and the rows of the runs 1 .. n+1 and the
    estimate of the last run. *)
Theorem sweep_terminated_iff
    (sim : Simulator) (model : PropagationModel) (fuel : nat) (rss0 : float)
    (st : State) :
  Distance.sweep sim model fuel rss0 = Terminated st
  <-> exists n : nat,
        (n + 2 <= fuel)%nat
        /\ (forall k, 1 <= k < 1 + Z.of_nat n ->
                      all_received (stats (sim (Distance.scenario model k)))
                      && negb (Distance.forced_stop model k) = true)
        /\ all_received
             (stats (sim (Distance.scenario model (1 + Z.of_nat n))))
           && negb (Distance.forced_stop model (1 + Z.of_nat n)) = false
        /\ st = {| averageRSS :=
                     final_estimate
                       (frames (sim (Distance.scenario
                                       model (1 + Z.of_nat n))));
                   outputFile :=
                     Distance.header model
                       :: map Measurement
                            (flat_map (distance_rows sim model)
                                      (Zseq 1 (S n)));
                   connectionPossible := false |}.
Proof.
  unfold Distance.sweep. split.
  - intros Hloop. apply loop_terminated_inv in Hloop; [|reflexivity].
    destruct Hloop as (n & Hn & Hrun & Hstop & Hout & Havg & Hc).
    exists n. repeat split; try assumption.
    apply State_ext; assumption.
  - intros (n & Hn & Hrun & Hstop & ->).
    destruct (loop_stops sim model n 1
                {| averageRSS := rss0;
                   outputFile := [Distance.header model];
                   connectionPossible := true |} fuel)
      as (st' & Hloop & Hc & Hout); auto.
    rewrite Hloop. f_equal.
    apply loop_terminated_inv in Hloop; [|reflexivity].
    destruct Hloop as (n' & _ & Hrun' & Hstop' & _ & Havg & _).
    assert (Hnn : n' = n).
    { destruct (Nat.lt_trichotomy n' n) as [Hlt | [Heq | Hgt]];
        [| exact Heq |].
      - unfold distance_continues in Hstop'.
        rewrite Hrun in Hstop' by lia. discriminate.
      - unfold distance_continues in Hrun'.
        rewrite Hrun' in Hstop by lia. discriminate. }
    subst n'. apply State_ext; assumption.
Qed.

(** X3 (the files of [main]).  When [main] completes, the file written for
    each model in turn is the header followed by the rows of the runs from
    distance 1 to the first distance whose run left [connectionPossible]
    false; this holds whatever the earlier sweeps left in [averageRSS]. *)
Theorem main_files (sim : Simulator) (fuel : nat)
    (files : list (string * File)) :
  Distance.main sim fuel = Some files ->
  Forall2 (file_of_sweep sim) modelsToBeExamined files.
Proof. apply sweep_models_spec. Qed.

(** X3, witness: the link is lost at distance 3 for every model. *)
Lemma main_files_witness :
  exists files,
    Distance.main (sim_connected_until 3) 5 = Some files
    /\ Forall2 (file_of_sweep (sim_connected_until 3))
               modelsToBeExamined files.
Proof.
  destruct (Distance.main (sim_connected_until 3) 5) as [files|] eqn:Hmain.
  - exists files. split; [reflexivity|].
    exact (main_files (sim_connected_until 3) 5 files Hmain).
  - vm_compute in Hmain. discriminate Hmain.
Defined.

(** X4 (the flag of the runtime sweep).  When the runtime sweep ends,
    [connectionPossible] is true exactly if no flow entry of any of the 200
    runs had [rxBytes == 0], and [averageRSS] holds the estimate of the run
    of 200 seconds. *)
Theorem runtime_flag_tracked (sim : Simulator) (fuel : nat) :
  (201 <= fuel)%nat ->
  exists st,
    Runtime.main sim fuel = Terminated st
    /\ connectionPossible st
       = forallb (fun t => all_received (stats (sim (Runtime.scenario t))))
                 (Zseq 1 200)
    /\ averageRSS st
       = final_estimate (frames (sim (Runtime.scenario 200))).
Proof.
  intros Hfuel. unfold Runtime.main.
  destruct (runtime_loop_state sim 200 1
              {| averageRSS := 0%float;
                 outputFile := [Runtime.header];
                 connectionPossible := true |} fuel)
    as (st & Hloop & Hc & _ & Havg); [reflexivity | lia |].
  exists st. split; [exact Hloop|]. split; [exact Hc|].
  apply Havg. discriminate.
Qed.

(** X4, witness: bytes arrive in every run, the flag ends true. *)
Lemma runtime_flag_tracked_witness :
  exists st,
    Runtime.main sim_always 201 = Terminated st
    /\ connectionPossible st
       = forallb (fun t =>
                    all_received (stats (sim_always (Runtime.scenario t))))
                 (Zseq 1 200)
    /\ averageRSS st
       = final_estimate (frames (sim_always (Runtime.scenario 200))).
Proof.
  apply (runtime_flag_tracked sim_always 201). lia.
Defined.

(** X5 (shape and order of a file).  At any point of a sweep of either
    driver the file is the header line followed by measurement rows only;
    the rows come in non-decreasing order of coordinate, and every
    coordinate lies between 1 and the number of loop iterations made (and
    is at most 200 in the runtime sweep). *)
Theorem file_shape_and_order (sim : Simulator) (fuel : nat) :
  (forall model rss0,
      let f := outputFile (result_state (Distance.sweep sim model fuel rss0)) in
      f = Distance.header model :: map Measurement (rows f)
      /\ StronglySorted Z.le (coordinates f)
      /\ Forall (fun c => 1 <= c <= Z.of_nat fuel) (coordinates f))
  /\ (let f := outputFile (result_state (Runtime.main sim fuel)) in
      f = Runtime.header :: map Measurement (rows f)
      /\ StronglySorted Z.le (coordinates f)
      /\ Forall (fun c => 1 <= c <= Z.of_nat fuel /\ c <= 200)
                (coordinates f)).
Proof.
  split.
  - intros model rss0 f. subst f. unfold Distance.sweep.
    destruct (loop_output sim model fuel 1
                {| averageRSS := rss0;
                   outputFile := [Distance.header model];
                   connectionPossible := true |}) as (n & Hn & ->).
    cbn [outputFile app]. unfold coordinates. cbn [rows].
    rewrite rows_Measurement. repeat split.
    + apply coordinates_sorted. intros d r. apply run_rows_coordinate.
    + apply Forall_forall. intros c Hc.
      apply coordinates_in_range in Hc; [lia|].
      intros d r. apply run_rows_coordinate.
  - intros f. subst f. unfold Runtime.main.
    destruct (runtime_loop_output_bounded sim fuel 1
                {| averageRSS := 0%float;
                   outputFile := [Runtime.header];
                   connectionPossible := true |}) as (n & Hn & Hb & ->);
      [lia|].
    cbn [outputFile app]. unfold coordinates. cbn [rows].
    rewrite rows_Measurement. repeat split.
    + apply coordinates_sorted. intros d r. apply run_rows_coordinate.
    + apply Forall_forall. intros c Hc.
      apply coordinates_in_range in Hc; [lia|].
      intros d r. apply run_rows_coordinate.
Qed.

(** X6 (one estimate per coordinate).  In a file of either driver, at any
    point of the sweep, two rows with the same coordinate carry the same
    RSS: the rows of one run share the run's estimate, also when the run
    has several flow entries. *)
Theorem one_estimate_per_coordinate (sim : Simulator) (fuel : nat)
    (f : File) (r1 r2 : Row) :
  (exists model rss0,
      f = outputFile (result_state (Distance.sweep sim model fuel rss0)))
  \/ f = outputFile (result_state (Runtime.main sim fuel)) ->
  In r1 (rows f) ->
  In r2 (rows f) ->
  coordinate r1 = coordinate r2 ->
  rss r1 = rss r2.
Proof.
  intros [(model & rss0 & ->) | ->] H1 H2 Hcoord.
  - apply sweep_row_origin, In_run_rows in H1.
    apply sweep_row_origin, In_run_rows in H2.
    destruct H1 as (it1 & _ & E1). destruct H2 as (it2 & _ & E2).
    rewrite E1 at 1. rewrite E2 at 1. simpl. now rewrite Hcoord.
  - apply runtime_row_origin, In_run_rows in H1.
    apply runtime_row_origin, In_run_rows in H2.
    destruct H1 as (it1 & _ & E1). destruct H2 as (it2 & _ & E2).
    rewrite E1 at 1. rewrite E2 at 1. simpl. now rewrite Hcoord.
Qed.

(** X6, witness: the two rows of a run with two flow entries. *)
Lemma one_estimate_per_coordinate_witness :
  exists r1 r2,
    rows (outputFile
            (result_state (Distance.sweep sim_two_flows FRIIS 1 0%float)))
    = [r1; r2]
    /\ coordinate r1 = coordinate r2
    /\ rss r1 = rss r2.
Proof.
  eexists. eexists. split; [vm_compute; reflexivity|].
  split; [reflexivity|].
  apply (one_estimate_per_coordinate sim_two_flows 1
           (outputFile
              (result_state (Distance.sweep sim_two_flows FRIIS 1 0%float)))).
  - left. exists FRIIS, 0%float. reflexivity.
  - vm_compute. left. reflexivity.
  - vm_compute. right. left. reflexivity.
  - reflexivity.
Defined.

(** X7 (a sweep that cannot stop).  For Friis, ThreeLogDistance and
    TwoRayGround nothing but a flow entry with [rxBytes == 0] ends the
    sweep: if no run ever has such an entry the sweep is still running
    after any number of iterations, and when this happens for Friis, the
    first model, [main] never gets to the other models. *)
Theorem sweep_never_stops (sim : Simulator) (model : PropagationModel) :
  Distance.forced_model model = false ->
  (forall d, 1 <= d ->
             all_received (stats (sim (Distance.scenario model d))) = true) ->
  (forall fuel rss0,
      exists st,
        Distance.sweep sim model fuel rss0
        = StillRunning (1 + Z.of_nat fuel) st)
  /\ (model = FRIIS -> forall fuel, Distance.main sim fuel = None).
Proof.
  intros Hfree Hall.
  assert (Hrun : forall fuel rss0,
             exists st,
               Distance.sweep sim model fuel rss0
               = StillRunning (1 + Z.of_nat fuel) st).
  { intros fuel rss0. unfold Distance.sweep.
    destruct (loop_running sim model fuel 1
                {| averageRSS := rss0;
                   outputFile := [Distance.header model];
                   connectionPossible := true |})
      as (st & Hloop & _); [reflexivity | | eauto].
    intros k Hk. unfold distance_continues, Distance.forced_stop.
    rewrite Hall, Hfree by lia. now rewrite andb_false_r. }
  split; [exact Hrun|].
  intros -> fuel. unfold Distance.main, modelsToBeExamined.
  cbn [Distance.sweep_models].
  destruct (Hrun fuel 0%float) as (st & ->). reflexivity.
Qed.

(** X7, witness: bytes always arrive. *)
Lemma sweep_never_stops_witness :
  (exists st,
      Distance.sweep sim_always TWO_RAY_GROUND 1000 0%float
      = StillRunning (1 + Z.of_nat 1000) st)
  /\ Distance.main sim_always 1000 = None.
Proof.
  split.
  - apply (proj1 (sweep_never_stops sim_always TWO_RAY_GROUND
                    eq_refl (fun d _ => eq_refl))).
  - apply (proj2 (sweep_never_stops sim_always FRIIS
                    eq_refl (fun d _ => eq_refl)) eq_refl).
Defined.

(** X8 (a flow monitor that never has a flow).  If no run ever yields a
    flow entry, no measurement row is ever written, and only the loop
    tests end a sweep.  The FixedRSS and Nakagami sweeps make exactly the
    runs at 1 .. 500: after any number [fuel <= 500] of iterations the
    sweep is still running, about to start the run at [fuel + 1], and from
    501 iterations on it has stopped; the file holds the header only.  The
    sweeps of the other three models never end.  The runtime sweep makes
    exactly its 200 runs: it is still running after any [fuel <= 200]
    iterations and has stopped from 201 on, with the header only. *)
Theorem no_flow_ever (sim : Simulator) (model : PropagationModel) :
  (forall sc, stats (sim sc) = []) ->
  (Distance.forced_model model = true ->
   (forall fuel rss0,
       (fuel <= 500)%nat ->
       exists st,
         Distance.sweep sim model fuel rss0
         = StillRunning (1 + Z.of_nat fuel) st
         /\ outputFile st = [Distance.header model])
   /\ (forall fuel rss0,
          (501 <= fuel)%nat ->
          exists st,
            Distance.sweep sim model fuel rss0 = Terminated st
            /\ outputFile st = [Distance.header model]))
  /\ (Distance.forced_model model = false ->
      forall fuel rss0,
        exists st,
          Distance.sweep sim model fuel rss0
          = StillRunning (1 + Z.of_nat fuel) st
          /\ outputFile st = [Distance.header model])
  /\ (forall fuel,
         (fuel <= 200)%nat ->
         exists st,
           Runtime.main sim fuel = StillRunning (1 + Z.of_nat fuel) st
           /\ outputFile st = [Runtime.header])
  /\ (forall fuel,
         (201 <= fuel)%nat ->
         exists st,
           Runtime.main sim fuel = Terminated st
           /\ outputFile st = [Runtime.header]).
Proof.
  intros Hnone.
  assert (Hrows : forall l,
             flat_map (distance_rows sim model) l = []).
  { intros l. apply flat_map_nil. intros d _.
    unfold distance_rows, run_rows. now rewrite Hnone. }
  assert (Hrrows : forall l, flat_map (runtime_rows sim) l = []).
  { intros l. apply flat_map_nil. intros t _.
    unfold runtime_rows, run_rows. now rewrite Hnone. }
  assert (Hcont : forall d,
             distance_continues sim model d
             = negb (Distance.forced_stop model d)).
  { intros d. unfold distance_continues. now rewrite Hnone. }
  split; [|split; [|split]].
  - intros Hforced. split.
    + intros fuel rss0 Hfuel. unfold Distance.sweep.
      destruct (loop_running_upto sim model fuel 1
                  {| averageRSS := rss0;
                     outputFile := [Distance.header model];
                     connectionPossible := true |})
        as (st & Hloop & Hout); [reflexivity | |].
      * intros k Hk. rewrite Hcont, forced_stop_below; [reflexivity | lia].
      * exists st. split; [exact Hloop|]. now rewrite Hout, Hrows.
    + intros fuel rss0 Hfuel.
      destruct (sweep_stops_at sim model 499 fuel rss0)
        as (st & Hsweep & Hout).
      * intros k Hk. rewrite Hcont, forced_stop_below; [reflexivity | lia].
      * rewrite Hcont. unfold Distance.forced_stop. now rewrite Hforced.
      * lia.
      * exists st. split; [exact Hsweep|]. now rewrite Hout, Hrows.
  - intros Hfree fuel rss0. unfold Distance.sweep.
    destruct (loop_running sim model fuel 1
                {| averageRSS := rss0;
                   outputFile := [Distance.header model];
                   connectionPossible := true |})
      as (st & Hloop & _ & Hout); [reflexivity | |].
    + intros k _. rewrite Hcont. unfold Distance.forced_stop.
      rewrite Hfree. now rewrite andb_false_r.
    + exists st. split; [exact Hloop|]. now rewrite Hout, Hrows.
  - intros fuel Hfuel. unfold Runtime.main.
    destruct (runtime_loop_running sim fuel 1
                {| averageRSS := 0%float;
                   outputFile := [Runtime.header];
                   connectionPossible := true |})
      as (st & Hloop & Hout); [lia|].
    exists st. split; [exact Hloop|]. now rewrite Hout, Hrrows.
  - intros fuel Hfuel. unfold Runtime.main.
    destruct (runtime_loop_terminates sim 200 1
                {| averageRSS := 0%float;
                   outputFile := [Runtime.header];
                   connectionPossible := true |} fuel)
      as (st & Hloop & Hout); [reflexivity | lia |].
    exists st. split; [exact Hloop|]. now rewrite Hout, Hrrows.
Qed.

(** X8, witness: the engine without flows.  Nakagami is still running
    after 500 iterations and has stopped after 501; ThreeLogDistance is
    still running after 600; the runtime sweep is still running after 200
    iterations and has stopped after 201. *)
Lemma no_flow_ever_witness :
  (exists st,
      Distance.sweep sim_no_flows NAKAGAMI 500 0%float
      = StillRunning (1 + Z.of_nat 500) st
      /\ outputFile st = [Distance.header NAKAGAMI])
  /\ (exists st,
         Distance.sweep sim_no_flows NAKAGAMI 501 0%float = Terminated st
         /\ outputFile st = [Distance.header NAKAGAMI])
  /\ (exists st,
         Distance.sweep sim_no_flows THREE_LOG_DISTANCE 600 0%float
         = StillRunning (1 + Z.of_nat 600) st
         /\ outputFile st = [Distance.header THREE_LOG_DISTANCE])
  /\ (exists st,
         Runtime.main sim_no_flows 200 = StillRunning (1 + Z.of_nat 200) st
         /\ outputFile st = [Runtime.header])
  /\ (exists st,
         Runtime.main sim_no_flows 201 = Terminated st
         /\ outputFile st = [Runtime.header]).
Proof.
  pose proof (no_flow_ever sim_no_flows NAKAGAMI (fun _ => eq_refl))
    as (Hforced & _ & Hlow & Hhigh).
  pose proof (no_flow_ever sim_no_flows THREE_LOG_DISTANCE (fun _ => eq_refl))
    as (_ & Hfree & _).
  destruct (Hforced eq_refl) as (Hbelow & Hfrom).
  split; [apply Hbelow; lia|].
  split; [apply Hfrom; lia|].
  split; [apply Hfree; reflexivity|].
  split; [apply Hlow; lia | apply Hhigh; lia].
Defined.

(** X9 (application windows of the runtime sweep).  In the run of [t]
    seconds the applications are told to stop at [t], when the simulation
    stops; the client starts at 2 s and the server at 1 s.  So the client's
    stop time is after its start time only for [t > 2], and the server's
    only for [t > 1]: in the runs of 1 and 2 seconds the client has no time
    to send. *)
Theorem runtime_application_windows (t : Z) :
  1 <= t <= 200 ->
  let sc := Runtime.scenario t in
  (clientStart sc <? appStop sc)%float = (2 <? t)
  /\ (serverStart sc <? appStop sc)%float = (1 <? t)
  /\ (appStop sc =? stopTime sc)%float = true.
Proof.
  intros Ht sc. subst sc.
  assert (Hall : forallb window_check (Zseq 1 200) = true)
    by (vm_compute; reflexivity).
  rewrite forallb_forall in Hall.
  specialize (Hall t). rewrite In_Zseq in Hall.
  specialize (Hall ltac:(lia)). unfold window_check in Hall.
  apply andb_true_iff in Hall. destruct Hall as (Hall & Hstop).
  apply andb_true_iff in Hall. destruct Hall as (Hclient & Hserver).
  apply Bool.eqb_prop in Hclient. apply Bool.eqb_prop in Hserver.
  repeat split; assumption.
Qed.

(** X9, witness: the run of 2 seconds. *)
Lemma runtime_application_windows_witness :
  (clientStart (Runtime.scenario 2) <? appStop (Runtime.scenario 2))%float
  = false
  /\ (serverStart (Runtime.scenario 2) <? appStop (Runtime.scenario 2))%float
     = true
  /\ (appStop (Runtime.scenario 2) =? stopTime (Runtime.scenario 2))%float
     = true.
Proof.
  apply (runtime_application_windows 2). lia.
Defined.

(** X10 (size of the packet limit).  In the runtime sweep the conversion
    that yields the packet limit is defined for every duration; the limit
    for [t] seconds lies between [6465 t] and [6466 t], does not decrease
    with [t], and exceeds the number of send intervals between the client's
    start and its stop, so the limit is not what ends the client's
    sending. *)
Theorem packet_limit_bounds (t : Z) :
  1 <= t <= 200 ->
  exists n,
    MaxPackets (Runtime.scenario t) = Some n
    /\ 6465 * t <= n <= 6466 * t
    /\ ((appStop (Runtime.scenario t) - clientStart (Runtime.scenario t))
        / Interval (Runtime.scenario t) <? Double.of_Z n)%float = true
    /\ (t < 200 ->
        exists n', MaxPackets (Runtime.scenario (t + 1)) = Some n'
                   /\ n <= n').
Proof.
  intros Ht.
  assert (Hall : forallb limit_check (Zseq 1 200) = true)
    by (vm_compute; reflexivity).
  assert (Hstep : forallb limit_step_check (Zseq 1 199) = true)
    by (vm_compute; reflexivity).
  rewrite forallb_forall in Hall, Hstep.
  specialize (Hall t). rewrite In_Zseq in Hall.
  specialize (Hall ltac:(lia)). unfold limit_check in Hall.
  specialize (Hstep t). rewrite In_Zseq in Hstep.
  unfold limit_step_check in Hstep.
  destruct (MaxPackets (Runtime.scenario t)) as [n|]; [|discriminate].
  apply andb_true_iff in Hall. destruct Hall as (Hall & Hwin).
  apply andb_true_iff in Hall. destruct Hall as (Hlo & Hhi).
  exists n. repeat split; try lia; try assumption.
  intros Hlt. specialize (Hstep ltac:(lia)).
  destruct (MaxPackets (Runtime.scenario (t + 1))) as [n'|]; [|discriminate].
  exists n'. split; [reflexivity | lia].
Qed.

(** X10, witness: the run of 3 seconds. *)
Lemma packet_limit_bounds_witness :
  exists n,
    MaxPackets (Runtime.scenario 3) = Some n
    /\ 6465 * 3 <= n <= 6466 * 3
    /\ ((appStop (Runtime.scenario 3) - clientStart (Runtime.scenario 3))
        / Interval (Runtime.scenario 3) <? Double.of_Z n)%float = true
    /\ (3 < 200 ->
        exists n', MaxPackets (Runtime.scenario (3 + 1)) = Some n'
                   /\ n <= n').
Proof.
  apply (packet_limit_bounds 3). lia.
Defined.

(** X11 (the sweep goes on only after bytes were received).  If a run of
    the distance sweep has at least one flow entry and leaves
    [connectionPossible] true, every entry delivered bytes, so the run
    received bytes; and a run with a single entry clears the flag exactly
    when it received no byte or the forced stop applies. *)
Theorem continue_means_received
    (sim : Simulator) (model : PropagationModel) (d : Z) (st : State) :
  connectionPossible st = true ->
  stats (sim (Distance.scenario model d)) <> [] ->
  (connectionPossible (Distance.body sim model d st) = true ->
   receivedAnyBytes (sim (Distance.scenario model d)) = true
   /\ forall it, In it (stats (sim (Distance.scenario model d))) ->
                 rxBytes it <> 0%N)
  /\ (forall it,
         stats (sim (Distance.scenario model d)) = [it] ->
         connectionPossible (Distance.body sim model d st)
         = receivedAnyBytes (sim (Distance.scenario model d))
           && negb (Distance.forced_stop model d)).
Proof.
  intros Hc Hne. split.
  - intros Hgo. rewrite body_connectionPossible, Hc in Hgo.
    unfold distance_continues in Hgo. simpl in Hgo.
    apply andb_true_iff in Hgo. destruct Hgo as (Hall & _). split.
    + now apply all_received_total.
    + intros it Hit H0.
      assert (Hfalse : all_received (stats (sim (Distance.scenario model d)))
                       = false)
        by (apply all_received_false; eauto).
      congruence.
  - intros it Hit. rewrite body_connectionPossible, Hc.
    unfold distance_continues, receivedAnyBytes. rewrite Hit. simpl.
    rewrite N.add_0_r, andb_true_r. f_equal.
    destruct (N.eqb_spec (rxBytes it) 0) as [E|E]; simpl; symmetry.
    + apply N.ltb_ge. lia.
    + apply N.ltb_lt. lia.
Qed.

(** X11, witness: a run with two flow entries that both deliver. *)
Lemma continue_means_received_witness :
  connectionPossible (Distance.body sim_two_flows FRIIS 1 st_leftover) = true
  /\ receivedAnyBytes (sim_two_flows (Distance.scenario FRIIS 1)) = true.
Proof.
  split; [reflexivity|].
  apply (proj1 (continue_means_received sim_two_flows FRIIS 1 st_leftover
                  eq_refl ltac:(discriminate))).
  reflexivity.
Defined.

(** X12 (the runtime sweep never reads the flag).  Started from two states
    with the same file, whatever their [connectionPossible] and
    [averageRSS], the runtime loop writes the same file, and it ends from
    one state when it ends from the other. *)
Theorem runtime_ignores_flag (sim : Simulator) (fuel : nat) (t : Z)
    (st st' : State) :
  outputFile st = outputFile st' ->
  outputFile (result_state (Runtime.loop sim fuel t st))
  = outputFile (result_state (Runtime.loop sim fuel t st'))
  /\ ((exists s, Runtime.loop sim fuel t st = Terminated s)
      <-> (exists s', Runtime.loop sim fuel t st' = Terminated s')).
Proof.
  intros Hout. split.
  - now apply runtime_loop_reads.
  - split; intros (s & Hs).
    + eapply (proj2 (runtime_loop_reads sim fuel t st st' Hout)); eauto.
    + eapply (proj2 (runtime_loop_reads sim fuel t st' st (eq_sym Hout)));
        eauto.
Qed.

(** X12, witness: the same sweep started with the flag cleared. *)
Lemma runtime_ignores_flag_witness :
  outputFile (result_state (Runtime.loop sim_always 201 1 st_leftover))
  = outputFile
      (result_state
         (Runtime.loop sim_always 201 1
                       (set_connectionPossible false st_leftover))).
Proof.
  apply (proj1 (runtime_ignores_flag sim_always 201 1 st_leftover
                  (set_connectionPossible false st_leftover) eq_refl)).
Defined.
